(** * llm-agent: the tool-call dispatch loop and the fact-memory store

    A shallow embedding of [src/main.js] (the dispatch loop
    [processChatWithTools], its registry [availableFunctions] and the
    read-eval loop around it) and of [src/tools.js] (the tool handlers and
    the file-backed memory store), followed by the properties of the
    design document stated over that embedding.

    Conventions of the embedding.
    - A JavaScript value is a [JsValue]; numbers are left out, no path
      followed here computes with one.
    - A JavaScript evaluation either completes normally or throws: the
      [Completion] type.  Code that reads or writes the disk, the console,
      the clock or the module-level [memoryStore] is a function from
      [World] to a completion and a new [World] (the monad [M]).
    - What the program gets from outside the repository (the model behind
      [ollama.chat], [JSON.parse], [JSON.stringify], [globSync], [RegExp],
      the clock, the working directory) is a field of [Env].
    - [while (true)] is unrolled with a fuel argument that counts calls to
      the model. *)

From Stdlib Require Import String Ascii List Bool Arith Lia DecimalString.
Import ListNotations.

Set Warnings "-register-all".

Local Open Scope list_scope.
Local Open Scope string_scope.

(** ** JavaScript values *)

Inductive JsValue : Type :=
| VUndefined
| VNull
| VBool (b : bool)
| VString (s : string)
| VArray (elements : list JsValue)
| VObject (props : list (string * JsValue)).

(** An error object: its constructor name and its [message]. *)
Record JsError : Type := mkError { err_name : string; err_message : string }.

Definition TypeError (m : string) : JsError := mkError "TypeError" m.
Definition ReferenceError (m : string) : JsError := mkError "ReferenceError" m.

Inductive Completion (A : Type) : Type :=
| Normal (a : A)
| Throw (e : JsError).
Arguments Normal {A} a.
Arguments Throw {A} e.

(** Own-property lookup in a property list (first binding wins). *)
Fixpoint assoc {A : Type} (k : string) (l : list (string * A)) : option A :=
  match l with
  | [] => None
  | (k', v) :: l' => if String.eqb k k' then Some v else assoc k l'
  end.

(** Truthiness, as tested by [if (x)] and [!x]. *)
Definition truthy (v : JsValue) : bool :=
  match v with
  | VUndefined | VNull => false
  | VBool b => b
  | VString s => negb (String.eqb s "")
  | VArray _ | VObject _ => true
  end.

Definition string_of_nat (n : nat) : string :=
  NilEmpty.string_of_uint (Nat.to_uint n).

Fixpoint join (sep : string) (l : list string) : string :=
  match l with
  | [] => ""
  | [x] => x
  | x :: l' => x ++ sep ++ join sep l'
  end.

(** [ToString], as applied by a template literal [`${v}`].  A plain object
    converts through the inherited [Object.prototype.toString] unless an
    own data property [toString] (never callable in a JSON value) shadows
    it, in which case [OrdinaryToPrimitive] fails; an array joins its
    elements with commas, [null] and [undefined] elements giving the empty
    string. *)
Fixpoint ToString (v : JsValue) : Completion string :=
  match v with
  | VUndefined => Normal "undefined"
  | VNull => Normal "null"
  | VBool true => Normal "true"
  | VBool false => Normal "false"
  | VString s => Normal s
  | VArray l =>
      let elems :=
        (fix elems (l : list JsValue) : Completion (list string) :=
           match l with
           | [] => Normal []
           | x :: l' =>
               match (match x with
                      | VUndefined | VNull => Normal ""
                      | _ => ToString x
                      end) with
               | Throw e => Throw e
               | Normal s =>
                   match elems l' with
                   | Throw e => Throw e
                   | Normal ss => Normal (s :: ss)
                   end
               end
           end) in
      match elems l with
      | Normal ss => Normal (join "," ss)
      | Throw e => Throw e
      end
  | VObject props =>
      match assoc "toString" props with
      | None => Normal "[object Object]"
      | Some _ => Throw (TypeError "Cannot convert object to primitive value")
      end
  end.

(** ** The world the program runs in *)

(** An entry of the file system, under the path as the program spells it:
    a regular file with what [fs.readFileSync(path, "utf-8")] gives for
    it; a directory with what [fs.readdirSync] gives; or an entry that
    [lstat] calls neither (a symbolic link, say), with what reading
    through it gives.  A link that leads nowhere is no entry: [existsSync]
    does not see it. *)
Inductive FsEntry : Type :=
| File (content : Completion string)
| Directory (listing : Completion (list string))
| OtherEntry (content : Completion string).

(** How [fs.writeFileSync] fails on a path.  Either the open throws
    (permissions, a missing parent, a read-only disk) and nothing has
    changed; or the file has been opened, hence created or emptied, and
    the write throws (a full disk, an I/O error) after [written]
    characters of the data have reached the file. *)
Inductive WriteFailure : Type :=
| OpenFails (message : string)
| WriteFails (written : nat) (message : string).

Definition failure_message (failure : WriteFailure) : string :=
  match failure with
  | OpenFails message => message
  | WriteFails _ message => message
  end.

Inductive Stream : Type := Stdout | Stderr.

(** [disk] maps absolute paths to entries; a path is taken as it is
    spelled, so two spellings of one file are two entries.
    [write_errors] lists the paths on which [fs.writeFileSync] throws,
    with the way it fails.  [memoryStore] is the module-level [Map] of
    tools.js, in insertion order and with unique keys.  [console] collects
    the lines written by the memory store and by [saveChatHistory].
    [dates_taken] counts the evaluations of [new Date()]. *)
Record World : Type := mkWorld {
  disk : list (string * FsEntry);
  write_errors : list (string * WriteFailure);
  memoryStore : list (string * JsValue);
  console : list (Stream * string);
  dates_taken : nat
}.

(** State and exceptions. *)
Definition M (A : Type) : Type := World -> Completion A * World.

Definition ret {A : Type} (a : A) : M A := fun w => (Normal a, w).

Definition throw {A : Type} (e : JsError) : M A := fun w => (Throw e, w).

Definition bind {A B : Type} (m : M A) (k : A -> M B) : M B :=
  fun w =>
    match m w with
    | (Normal a, w') => k a w'
    | (Throw e, w') => (Throw e, w')
    end.

Definition lift {A : Type} (c : Completion A) : M A := fun w => (c, w).

(** [try { body } catch (e) { handler e }]: the effects of [body] up to the
    throw stay. *)
Definition try_catch {A : Type} (body : M A) (handler : JsError -> M A) : M A :=
  fun w =>
    match body w with
    | (Normal a, w') => (Normal a, w')
    | (Throw e, w') => handler e w'
    end.

Declare Scope js_scope.
Delimit Scope js_scope with js.
Notation "x <- m ;; k" := (bind m (fun x => k))
  (at level 61, m at next level, right associativity) : js_scope.
Notation "m ;;; k" := (bind m (fun _ => k))
  (at level 61, right associativity) : js_scope.
Local Open Scope js_scope.

(** The world after one more line on the console. *)
Definition write_console (stream : Stream) (line : string) (w : World) : World :=
  mkWorld (disk w) (write_errors w) (memoryStore w)
          (console w ++ [(stream, line)])%list (dates_taken w).

Definition console_log (line : string) : M unit :=
  fun w => (Normal tt, write_console Stdout line w).

Definition console_error (line : string) : M unit :=
  fun w => (Normal tt, write_console Stderr line w).

(** *** Node's [path] and [fs] *)

Definition dq : string := String (ascii_of_nat 34) "".

(** The "Received ..." part of Node's ERR_INVALID_ARG_TYPE message. *)
Definition received (v : JsValue) : string :=
  match v with
  | VUndefined => "undefined"
  | VNull => "null"
  | VBool true => "type boolean (true)"
  | VBool false => "type boolean (false)"
  | VString s => "type string"
  | VArray _ => "an instance of Array"
  | VObject _ => "an instance of Object"
  end.

Definition ERR_INVALID_ARG_TYPE (arg : string) (v : JsValue) : JsError :=
  TypeError ("The " ++ dq ++ arg ++ dq
             ++ " argument must be of type string. Received " ++ received v).

(** [path.isAbsolute] (POSIX): it validates its argument first and throws
    a [TypeError] when it is not a string. *)
Definition path_isAbsolute (p : JsValue) : Completion bool :=
  match p with
  | VString (String c _) => Normal (Ascii.eqb c "/")
  | VString EmptyString => Normal false
  | _ => Throw (ERR_INVALID_ARG_TYPE "path" p)
  end.

(** [path.join(process.cwd(), file)] for a working directory as
    [process.cwd()] returns it: absolute and without a trailing slash,
    except for the root. *)
Definition path_join (dir file : string) : string :=
  if String.eqb dir "/" then "/" ++ file else dir ++ "/" ++ file.

Definition fs_existsSync (p : string) : M bool :=
  fun w => (Normal (match assoc p (disk w) with Some _ => true | None => false end), w).

Definition ENOENT (p : string) : JsError :=
  mkError "Error" ("ENOENT: no such file or directory, '" ++ p ++ "'").

Definition fs_lstatSync (p : string) : M FsEntry :=
  fun w =>
    match assoc p (disk w) with
    | Some e => (Normal e, w)
    | None => (Throw (ENOENT p), w)
    end.

Definition isFile (e : FsEntry) : bool :=
  match e with File _ => true | _ => false end.

Definition isDirectory (e : FsEntry) : bool :=
  match e with Directory _ => true | _ => false end.

Definition fs_readFileSync (p : string) : M string :=
  fun w =>
    match assoc p (disk w) with
    | Some (File c) => (c, w)
    | Some (Directory _) =>
        (Throw (mkError "Error" "EISDIR: illegal operation on a directory, read"), w)
    | Some (OtherEntry c) => (c, w)
    | None => (Throw (ENOENT p), w)
    end.

Definition fs_readdirSync (p : string) : M (list string) :=
  fun w =>
    match assoc p (disk w) with
    | Some (Directory l) => (l, w)
    | Some _ =>
        (Throw (mkError "Error" ("ENOTDIR: not a directory, scandir '" ++ p ++ "'")), w)
    | None => (Throw (ENOENT p), w)
    end.

(** Replaces the binding of [k], or adds it at the end: a [Map]'s [set],
    and the effect of a write on the directory of files. *)
Fixpoint set_entry {A : Type} (k : string) (v : A) (l : list (string * A))
  : list (string * A) :=
  match l with
  | [] => [(k, v)]
  | (k', v') :: l' =>
      if String.eqb k k' then (k, v) :: l' else (k', v') :: set_entry k v l'
  end.

Definition set_disk (d : list (string * FsEntry)) (w : World) : World :=
  mkWorld d (write_errors w) (memoryStore w) (console w) (dates_taken w).

Fixpoint has_slash (s : string) : bool :=
  match s with
  | EmptyString => false
  | String c s' => Ascii.eqb c "/" || has_slash s'
  end.

(** The name of [p] in the directory [d], when [p] lies directly in it. *)
Definition child_name (d p : string) : option string :=
  let stem := if String.eqb d "/" then "/" else d ++ "/" in
  if String.prefix stem p
  then
    let n := substring (String.length stem) (String.length p - String.length stem) p in
    if String.eqb n "" || has_slash n then None else Some n
  else None.

(** A directory whose listing is known lists a new child; the place of a
    new name in the listing is the file system's choice, here the end. *)
Definition list_child (p : string) (entry : string * FsEntry) : string * FsEntry :=
  match entry with
  | (d, Directory (Normal l)) =>
      match child_name d p with
      | Some n =>
          if existsb (String.eqb n) l then entry
          else (d, Directory (Normal (l ++ [n])%list))
      | None => entry
      end
  | _ => entry
  end.

(** A new entry at a free path. *)
Definition create_entry (p : string) (entry : FsEntry)
           (d : list (string * FsEntry)) : list (string * FsEntry) :=
  set_entry p entry (map (list_child p) d).

(** The disk after [text] has replaced the content of the file at [p]: a
    free path gets a regular file; a file that could not be read still
    cannot; through a link the text is read back. *)
Definition store_file (p text : string) (d : list (string * FsEntry))
  : list (string * FsEntry) :=
  match assoc p d with
  | None => create_entry p (File (Normal text)) d
  | Some (File (Normal _)) => set_entry p (File (Normal text)) d
  | Some (File (Throw _)) => d
  | Some (OtherEntry _) => set_entry p (OtherEntry (Normal text)) d
  | Some (Directory _) => d
  end.

(** [fs.writeFileSync(p, data, "utf-8")].  A failure the world lists comes
    first; a directory at the path cannot be opened for writing. *)
Definition fs_writeFileSync (p : string) (data : string) : M unit :=
  fun w =>
    match assoc p (write_errors w) with
    | Some (OpenFails message) => (Throw (mkError "Error" message), w)
    | Some (WriteFails written message) =>
        (Throw (mkError "Error" message),
         set_disk (store_file p (substring 0 written data) (disk w)) w)
    | None =>
        match assoc p (disk w) with
        | Some (Directory _) =>
            (Throw (mkError "Error"
                      ("EISDIR: illegal operation on a directory, open '" ++ p ++ "'")),
             w)
        | _ => (Normal tt, set_disk (store_file p data (disk w)) w)
        end
    end.

(** ** Messages *)

(** A tool-call request of an assistant message: [toolCall.id],
    [toolCall.function.name] and [toolCall.function.arguments], the last
    one a JSON object. *)
Record ToolCall : Type := mkToolCall {
  id : JsValue;
  function_name : string;
  function_arguments : list (string * JsValue)
}.

(** A message of the transcript.  [tool_calls] is [None] when the property
    is missing; [tool_call_id] and [name] are present on tool messages. *)
Record Message : Type := mkMessage {
  role : string;
  content : JsValue;
  tool_calls : option (list ToolCall);
  tool_call_id : option JsValue;
  name : option string
}.

(** A JavaScript function called with one argument. *)
Definition Handler : Type := JsValue -> M JsValue.

(** ** What comes from outside the repository *)

Record Env : Type := mkEnv {
  (** [process.cwd()] *)
  cwd : string;
  (** [(await ollama.chat({model, messages, tools, stream: false})).message],
      or the rejection of the request *)
  ollama_chat : list Message -> Completion Message;
  (** the value of the n-th [new Date().toISOString()] *)
  toISOString : nat -> string;
  JSON_parse : string -> Completion JsValue;
  (** [JSON.stringify(Object.fromEntries(store), null, 2)] *)
  JSON_stringify : list (string * JsValue) -> string;
  (** [globSync(pattern, {cwd, absolute: true, nodir: true, ignore})] on a
      disk *)
  globSync : JsValue -> JsValue -> list JsValue -> list (string * FsEntry)
             -> Completion (list string);
  (** [new RegExp(pattern, "gm")] throws on an invalid pattern *)
  RegExp_new : JsValue -> Completion unit;
  (** [regex.test(line)] with [regex.lastIndex = i]: the new [lastIndex]
      when there is a match at or after [i] *)
  RegExp_test : JsValue -> nat -> string -> option nat;
  (** the binding main.js imports under the name [searchMemoryJs] *)
  searchMemoryJs : Handler
}.

(** ** tools.js *)

Definition nl : string := String (ascii_of_nat 10) "".

Section Tools.

Variable env : Env.

(** Identifiers tools.js can resolve: its imports, its own declarations
    and the globals it uses. *)
Definition tools_js_scope : list string :=
  [ "fs"; "path"; "globSync";
    "readFileJs"; "listDirectoryJs"; "writeFileJs"; "searchFileContentJs";
    "globJs"; "readManyFilesJs"; "MEMORY_FILE_PATH"; "memoryStore";
    "loadMemoryFromFile"; "saveMemoryToFile"; "saveMemoryJs";
    "retrieveMemoryJs"; "listAllMemoryJs"; "testFilePath";
    "testSearchFilePath";
    "process"; "console"; "JSON"; "Date"; "Map"; "Object"; "RegExp" ].

(** Evaluating an identifier that has no binding throws. *)
Definition resolve_identifier (x : string) : Completion unit :=
  if existsb (String.eqb x) tools_js_scope then Normal tt
  else Throw (ReferenceError (x ++ " is not defined")).

Definition call_globSync (pattern searchPath : JsValue) (ignore : list JsValue)
  : M (list string) :=
  fun w => (globSync env pattern searchPath ignore (disk w), w).

(** [glob.sync(pattern, globOptions)]: the identifier [glob] is evaluated
    first. *)
Definition glob_sync (pattern searchPath : JsValue) (ignore : list JsValue)
  : M (list string) :=
  lift (resolve_identifier "glob") ;;;
  call_globSync pattern searchPath ignore.

(** The [ignore] option of [searchFileContentJs] and [globJs]. *)
Definition ignored_directories : list JsValue :=
  [VString "node_modules/**"; VString ".git/**"].

Definition readFileJs (absolutePath : JsValue) : M JsValue :=
  absolute <- lift (path_isAbsolute absolutePath) ;;
  match absolutePath with
  | VString p =>
      if negb absolute
      then ret (VString ("Error: Path must be absolute. Received: " ++ p))
      else
        found <- fs_existsSync p ;;
        if negb found then ret (VString ("Error: File not found at " ++ p))
        else
          stat <- fs_lstatSync p ;;
          if negb (isFile stat)
          then ret (VString ("Error: Path is not a file: " ++ p))
          else
            try_catch
              (text <- fs_readFileSync p ;; ret (VString text))
              (fun e => ret (VString ("Error reading file: " ++ err_message e)))
  | _ => throw (ERR_INVALID_ARG_TYPE "path" absolutePath)
  end.

Definition listDirectoryJs (absolutePath : JsValue) : M JsValue :=
  absolute <- lift (path_isAbsolute absolutePath) ;;
  match absolutePath with
  | VString p =>
      if negb absolute
      then ret (VString ("Error: Path must be absolute. Received: " ++ p))
      else
        found <- fs_existsSync p ;;
        if negb found then ret (VString ("Error: Directory not found at " ++ p))
        else
          stat <- fs_lstatSync p ;;
          if negb (isDirectory stat)
          then ret (VString ("Error: Path is not a directory: " ++ p))
          else
            try_catch
              (items <- fs_readdirSync p ;; ret (VString (join nl items)))
              (fun e => ret (VString ("Error listing directory: " ++ err_message e)))
  | _ => throw (ERR_INVALID_ARG_TYPE "path" absolutePath)
  end.

(** A parameter with a default value: the default replaces [undefined]. *)
Definition default_to (d v : JsValue) : JsValue :=
  match v with
  | VUndefined => d
  | _ => v
  end.

(** [content.split("\n")] *)
Fixpoint split_lines (s : string) : list string :=
  match s with
  | EmptyString => [""]
  | String c s' =>
      if Ascii.eqb c (ascii_of_nat 10) then "" :: split_lines s'
      else match split_lines s' with
           | [] => [String c ""]
           | l :: ls => String c l :: ls
           end
  end.

(** The inner loop of [searchFileContentJs] over the lines of one file: the
    [g] flag makes [regex.test] start at [lastIndex] and move it. *)
Fixpoint scan_lines (pattern : JsValue) (filePath : string)
         (lines : list string) (lineNumber lastIndex : nat) : list string :=
  match lines with
  | [] => []
  | line :: rest =>
      match RegExp_test env pattern lastIndex line with
      | Some lastIndex' =>
          (filePath ++ ":" ++ string_of_nat lineNumber ++ ": " ++ line)
            :: scan_lines pattern filePath rest (S lineNumber) lastIndex'
      | None => scan_lines pattern filePath rest (S lineNumber) 0
      end
  end.

Fixpoint scan_files (pattern : JsValue) (filesToSearch : list string)
         (results : list string) : M (list string) :=
  match filesToSearch with
  | [] => ret results
  | filePath :: rest =>
      results' <-
        try_catch
          (text <- fs_readFileSync filePath ;;
           ret ((results ++ scan_lines pattern filePath (split_lines text) 1 0)%list))
          (fun _ => ret results) ;;
      scan_files pattern rest results'
  end.

Definition searchFileContentJs (pattern include searchPath : JsValue) : M JsValue :=
  let searchPath := default_to (VString (cwd env)) searchPath in
  try_catch
    (filesToSearch <-
       (if truthy include then glob_sync include searchPath ignored_directories
        else glob_sync (VString "**/*") searchPath ignored_directories) ;;
     lift (RegExp_new env pattern) ;;;
     results <- scan_files pattern filesToSearch [] ;;
     match results with
     | [] =>
         p <- lift (ToString pattern) ;;
         d <- lift (ToString searchPath) ;;
         suffix <- (if truthy include
                    then i <- lift (ToString include) ;;
                         ret (" with include '" ++ i ++ "'")
                    else ret "") ;;
         ret (VString ("No matches found for pattern '" ++ p ++ "' in '" ++ d
                       ++ "'" ++ suffix ++ "."))
     | _ => ret (VString (join nl results))
     end)
    (fun e => ret (VString ("Error searching file content: " ++ err_message e))).

Definition globJs (pattern searchPath : JsValue) : M JsValue :=
  let searchPath := default_to (VString (cwd env)) searchPath in
  try_catch
    (files <- call_globSync pattern searchPath ignored_directories ;;
     match files with
     | [] =>
         p <- lift (ToString pattern) ;;
         d <- lift (ToString searchPath) ;;
         ret (VString ("No files found matching pattern '" ++ p ++ "' in '" ++ d ++ "'."))
     | _ => ret (VString (join nl files))
     end)
    (fun e => ret (VString ("Error performing glob search: " ++ err_message e))).

(** Array spread [...v]: arrays and strings are iterable, the other values
    here are not. *)
Fixpoint characters (s : string) : list JsValue :=
  match s with
  | EmptyString => []
  | String c s' => VString (String c "") :: characters s'
  end.

Definition spread (what : string) (v : JsValue) : Completion (list JsValue) :=
  match v with
  | VArray l => Normal l
  | VString s => Normal (characters s)
  | _ => Throw (TypeError (what ++ " is not iterable"))
  end.

Definition defaultExcludes : list JsValue :=
  [ VString "node_modules/**"; VString ".git/**"; VString "dist/**";
    VString "build/**"; VString "temp/**"; VString "*.log"; VString "*.tmp";
    VString "*.bak" ].

(** The first loop of [readManyFilesJs]: glob every pattern, keep the paths
    not seen yet. *)
Fixpoint collect_files (patternsToGlob finalExcludes : list JsValue)
         (allFilePaths : list string) : M (list string) :=
  match patternsToGlob with
  | [] => ret allFilePaths
  | pattern :: rest =>
      files <- glob_sync pattern (VString (cwd env)) finalExcludes ;;
      collect_files rest finalExcludes
        (fold_left
           (fun acc file =>
              if existsb (String.eqb file) acc then acc else (acc ++ [file])%list)
           files allFilePaths)
  end.

(** Its second loop: read every file, a failed read leaving a line in the
    result. *)
Fixpoint combine_files (allFilePaths : list string) (combinedContent : string)
  : M string :=
  match allFilePaths with
  | [] => ret combinedContent
  | filePath :: rest =>
      combinedContent' <-
        try_catch
          (text <- fs_readFileSync filePath ;;
           ret (combinedContent ++ "--- " ++ filePath ++ " ---" ++ nl ++ text
                ++ nl ++ nl))
          (fun e =>
             ret (combinedContent ++ "--- Error reading " ++ filePath ++ ": "
                  ++ err_message e ++ " ---" ++ nl ++ nl)) ;;
      combine_files rest combinedContent'
  end.

Definition readManyFilesJs
           (paths exclude include recursive useDefaultExcludes : JsValue)
  : M JsValue :=
  let exclude := default_to (VArray []) exclude in
  let include := default_to (VArray []) include in
  let useDefaultExcludes := default_to (VBool true) useDefaultExcludes in
  try_catch
    (let defaults := if truthy useDefaultExcludes then defaultExcludes else [] in
     excluded <- lift (spread "exclude" exclude) ;;
     let finalExcludes := (defaults ++ excluded)%list in
     from_paths <- lift (spread "paths" paths) ;;
     from_include <- lift (spread "include" include) ;;
     let patternsToGlob := (from_paths ++ from_include)%list in
     allFilePaths <- collect_files patternsToGlob finalExcludes [] ;;
     match allFilePaths with
     | [] => ret (VString "No files found matching the provided patterns.")
     | _ =>
         combinedContent <- combine_files allFilePaths "" ;;
         ret (VString combinedContent)
     end)
    (fun e => ret (VString ("Error in readManyFiles: " ++ err_message e))).

(** *** The file-backed memory store *)

Definition MEMORY_FILE_PATH : string := path_join (cwd env) "llm_memory.json".

(** [Object.entries] of a parsed JSON value.  The properties of a
    [VObject] are listed in the object's own property order. *)
Fixpoint indexed (i : nat) (l : list JsValue) : list (string * JsValue) :=
  match l with
  | [] => []
  | x :: l' => (string_of_nat i, x) :: indexed (S i) l'
  end.

Definition Object_entries (v : JsValue) : Completion (list (string * JsValue)) :=
  match v with
  | VUndefined | VNull =>
      Throw (TypeError "Cannot convert undefined or null to object")
  | VBool _ => Normal []
  | VString s => Normal (indexed 0 (characters s))
  | VArray l => Normal (indexed 0 l)
  | VObject props => Normal props
  end.

(** [new Map(entries)] *)
Definition Map_of_entries (entries : list (string * JsValue))
  : list (string * JsValue) :=
  fold_left (fun m kv => set_entry (fst kv) (snd kv) m) entries [].

Definition loadMemoryFromFile : M (list (string * JsValue)) :=
  loaded <-
    try_catch
      (found <- fs_existsSync MEMORY_FILE_PATH ;;
       if found
       then
         data <- fs_readFileSync MEMORY_FILE_PATH ;;
         parsed <- lift (JSON_parse env data) ;;
         entries <- lift (Object_entries parsed) ;;
         ret (Some (Map_of_entries entries))
       else ret None)
      (fun e =>
         console_error ("Error loading memory from file: " ++ err_message e) ;;;
         ret None) ;;
  match loaded with
  | Some store => ret store
  | None => ret []
  end.

Definition saveMemoryToFile (store : list (string * JsValue)) : M unit :=
  try_catch
    (fs_writeFileSync MEMORY_FILE_PATH (JSON_stringify env store))
    (fun e => console_error ("Error saving memory to file: " ++ err_message e)).

Definition set_memoryStore (store : list (string * JsValue)) : M unit :=
  fun w => (Normal tt,
            mkWorld (disk w) (write_errors w) store (console w) (dates_taken w)).

Definition get_memoryStore : M (list (string * JsValue)) :=
  fun w => (Normal (memoryStore w), w).

(** [new Date().toISOString()] *)
Definition new_Date_toISOString : M string :=
  fun w => (Normal (toISOString env (dates_taken w)),
            mkWorld (disk w) (write_errors w) (memoryStore w) (console w)
                    (S (dates_taken w))).

Definition saveMemoryJs (fact : JsValue) : M JsValue :=
  timestamp <- new_Date_toISOString ;;
  let key := "fact_" ++ timestamp in
  store <- get_memoryStore ;;
  set_memoryStore (set_entry key fact store) ;;;
  store <- get_memoryStore ;;
  saveMemoryToFile store ;;;
  store <- get_memoryStore ;;
  ret (VString ("Fact saved to memory with key: " ++ key ++ ". Total facts: "
                ++ string_of_nat (length store))).

(** [memoryStore.get(key)]: the keys of the store are strings, so a key of
    another type is not found. *)
Definition Map_get (key : JsValue) (store : list (string * JsValue))
  : option JsValue :=
  match key with
  | VString k => assoc k store
  | _ => None
  end.

Definition retrieveMemoryJs (key : JsValue) : M JsValue :=
  store <- get_memoryStore ;;
  match Map_get key store with
  | Some fact =>
      k <- lift (ToString key) ;;
      f <- lift (ToString fact) ;;
      ret (VString ("Retrieved fact for key '" ++ k ++ "': " ++ f))
  | None =>
      k <- lift (ToString key) ;;
      ret (VString ("No fact found for key: " ++ k))
  end.

Fixpoint list_entries (entries : list (string * JsValue)) (result : string)
  : Completion string :=
  match entries with
  | [] => Normal result
  | (key, value) :: rest =>
      match ToString value with
      | Normal v => list_entries rest (result ++ "- " ++ key ++ ": " ++ v ++ nl)
      | Throw e => Throw e
      end
  end.

Definition listAllMemoryJs : M JsValue :=
  store <- get_memoryStore ;;
  match store with
  | [] => ret (VString "No facts currently stored in memory.")
  | _ =>
      result <- lift (list_entries store ("Stored facts:" ++ nl)) ;;
      ret (VString result)
  end.

End Tools.

(** ** main.js *)

Section Main.

Variable env : Env.

(** What reading a property of [availableFunctions] can give. *)
Inductive Property : Type :=
| PFunction (f : Handler)
| PObject
| PUndefined.

(** The own properties of the object literal [availableFunctions].  Every
    function is called with one argument, [functionArgs]; its other
    parameters are [undefined] and take their defaults. *)
Definition availableFunctions : list (string * Handler) :=
  [ ("read_file", readFileJs);
    ("list_directory", listDirectoryJs);
    ("search_file_content",
     fun a => searchFileContentJs env a VUndefined VUndefined);
    ("glob", fun a => globJs env a VUndefined);
    ("read_many_files",
     fun a => readManyFilesJs env a VUndefined VUndefined VUndefined VUndefined);
    ("save_memory", saveMemoryJs env);
    ("search_memory", searchMemoryJs env);
    ("list_all_memory", fun _ => listAllMemoryJs) ].

(** [ToObject(undefined)], the first step of most methods of
    [Object.prototype] when they are called without a receiver. *)
Definition no_receiver : JsError :=
  TypeError "Cannot convert undefined or null to object".

(** The properties [availableFunctions] inherits from [Object.prototype],
    as they behave when called as [f(functionArgs)] in module code, where
    [this] is [undefined] and the argument is the object the loop passes.
    [hasOwnProperty] and [propertyIsEnumerable] convert their argument to
    a property key before they look at the receiver.  [__proto__] is an
    accessor and gives the prototype object itself. *)
Definition Object_prototype : list (string * Property) :=
  [ ("constructor", PFunction (fun a => ret a));
    ("__defineGetter__", PFunction (fun _ => throw no_receiver));
    ("__defineSetter__", PFunction (fun _ => throw no_receiver));
    ("hasOwnProperty",
     PFunction (fun a => lift (ToString a) ;;; throw no_receiver));
    ("__lookupGetter__", PFunction (fun _ => throw no_receiver));
    ("__lookupSetter__", PFunction (fun _ => throw no_receiver));
    ("isPrototypeOf", PFunction (fun _ => throw no_receiver));
    ("propertyIsEnumerable",
     PFunction (fun a => lift (ToString a) ;;; throw no_receiver));
    ("toString", PFunction (fun _ => ret (VString "[object Undefined]")));
    ("valueOf", PFunction (fun _ => throw no_receiver));
    ("__proto__", PObject);
    ("toLocaleString",
     PFunction (fun _ =>
                  throw (TypeError "Object.prototype.toLocaleString called on null or undefined"))) ].

(** [availableFunctions[functionName]]: an own property, else an inherited
    one, else [undefined]. *)
Definition get_property (functionName : string) : Property :=
  match assoc functionName availableFunctions with
  | Some f => PFunction f
  | None =>
      match assoc functionName Object_prototype with
      | Some p => p
      | None => PUndefined
      end
  end.

(** The body of [for (const toolCall of toolCalls)] up to the push: the
    value of [toolOutput]. *)
Definition call_tool (toolCall : ToolCall) : M JsValue :=
  let functionName := function_name toolCall in
  let functionArgs := VObject (function_arguments toolCall) in
  match get_property functionName with
  | PFunction functionToCall => functionToCall functionArgs
  | PObject => throw (TypeError "functionToCall is not a function")
  | PUndefined => ret (VString ("Error: Tool '" ++ functionName ++ "' not found."))
  end.

Definition tool_message (toolCall : ToolCall) (toolOutput : JsValue) : Message :=
  {| role := "tool";
     content := toolOutput;
     tool_calls := None;
     tool_call_id := Some (id toolCall);
     name := Some (function_name toolCall) |}.

Fixpoint run_toolCalls (toolCalls : list ToolCall) (workingMessages : list Message)
  : M (list Message) :=
  match toolCalls with
  | [] => ret workingMessages
  | toolCall :: rest =>
      toolOutput <- call_tool toolCall ;;
      run_toolCalls rest (workingMessages ++ [tool_message toolCall toolOutput])%list
  end.

(** How a call of the asynchronous [processChatWithTools] stands: its
    promise resolved with a transcript, rejected with an error, or the
    loop is still running after the rounds allowed by the fuel. *)
Inductive LoopResult : Type :=
| Returned (workingMessages : list Message) (w : World)
| Rejected (e : JsError) (w : World)
| Running (workingMessages : list Message) (w : World).

(** [workingMessages] starts as a copy of [currentMessages]: nothing the
    loop does reaches the array of the caller.  The traces the loop writes
    to the console are left out; they decide nothing. *)
Fixpoint processChatWithTools (fuel : nat) (currentMessages : list Message)
         (w : World) : LoopResult :=
  let workingMessages := currentMessages in
  match fuel with
  | 0 => Running workingMessages w
  | S fuel' =>
      match ollama_chat env workingMessages with
      | Throw e => Rejected e w
      | Normal assistantMessage =>
          let workingMessages := (workingMessages ++ [assistantMessage])%list in
          match tool_calls assistantMessage with
          | None | Some [] => Returned workingMessages w
          | Some toolCalls =>
              match run_toolCalls toolCalls workingMessages w with
              | (Normal workingMessages', w') =>
                  processChatWithTools fuel' workingMessages' w'
              | (Throw e, w') => Rejected e w'
              end
          end
      end
  end.

(** *** The session *)

Definition system_message : Message :=
  {| role := "system";
     content :=
       VString ("You are a helpful assistant. The user's current working directory is '"
                ++ cwd env
                ++ "'. When you use tools that require a path, use this path as the default unless the user specifies a different one.");
     tool_calls := None;
     tool_call_id := None;
     name := None |}.

(** The initial value of the module-level [messages]. *)
Definition messages : list Message := [system_message].

Definition user_message (userQuery : string) : Message :=
  {| role := "user";
     content := VString userQuery;
     tool_calls := None;
     tool_call_id := None;
     name := None |}.

(** [toLowerCase] on the letters A to Z; no other character lowers to a
    letter of "exit". *)
Definition lower (c : ascii) : ascii :=
  let n := nat_of_ascii c in
  if Nat.leb 65 n && Nat.leb n 90 then ascii_of_nat (n + 32) else c.

Fixpoint toLowerCase (s : string) : string :=
  match s with
  | EmptyString => EmptyString
  | String c s' => String (lower c) (toLowerCase s')
  end.

(** The state of the read-eval loop between two lines of input: asking the
    next question, closed after "exit", or still waiting for
    [processChatWithTools].  What [saveChatHistory] writes on "exit" is
    not followed. *)
Inductive Session : Type :=
| Asking (messages : list Message) (w : World)
| Closed (messages : list Message)
| Waiting (messages : list Message) (w : World).

(** The callback of [rl.question]: one line typed by the user. *)
Definition askQuestion (fuel : nat) (userQuery : string)
           (messages : list Message) (w : World) : Session :=
  if String.eqb (toLowerCase userQuery) "exit" then Closed messages
  else
    let messages := (messages ++ [user_message userQuery])%list in
    match processChatWithTools fuel messages w with
    | Returned updatedMessages w' => Asking updatedMessages w'
    | Rejected _ w' => Asking messages w'
    | Running _ w' => Waiting messages w'
    end.

Fixpoint run_session (fuel : nat) (lines : list string)
         (messages : list Message) (w : World) : Session :=
  match lines with
  | [] => Asking messages w
  | userQuery :: rest =>
      match askQuestion fuel userQuery messages w with
      | Asking messages' w' => run_session fuel rest messages' w'
      | stopped => stopped
      end
  end.

Definition session_messages (s : Session) : list Message :=
  match s with
  | Asking m _ | Closed m | Waiting m _ => m
  end.

End Main.

(** ** How main.js links against tools.js *)

Definition tools_js_exports : list string :=
  [ "readFileJs"; "listDirectoryJs"; "writeFileJs"; "searchFileContentJs";
    "globJs"; "readManyFilesJs"; "saveMemoryJs"; "retrieveMemoryJs";
    "listAllMemoryJs"; "testFilePath"; "testSearchFilePath" ].

Definition main_js_imports : list string :=
  [ "globJs"; "listDirectoryJs"; "readFileJs"; "readManyFilesJs";
    "searchFileContentJs"; "saveMemoryJs"; "listAllMemoryJs"; "searchMemoryJs" ].

(** The imported names the exporting module does not provide. *)
Definition unresolved_imports (imports exports : list string) : list string :=
  filter (fun x => negb (existsb (String.eqb x) exports)) imports.

(** ** The search operation of the memory store *)

(** [text.includes(query)]: the query occurs in the text, compared
    character by character. *)
Fixpoint includes (query text : string) : bool :=
  String.prefix query text
  || match text with
     | EmptyString => false
     | String _ rest => includes query rest
     end.

(** Modelled from the spec: the function [searchMemoryJs] that main.js
    imports from tools.js and registers as [search_memory]; the tools.js
    at hand defines [saveMemoryJs], [retrieveMemoryJs] and
    [listAllMemoryJs] only.  The design document describes it as
    [searchBySubstring(query)]: "all records whose value contains [query]
    as a case-sensitive substring, in insertion order". *)
Definition searchBySubstring (query : string) (store : list (string * JsValue))
  : list (string * JsValue) :=
  filter (fun record =>
            match snd record with
            | VString fact => includes query fact
            | _ => false
            end)
         store.

(** Modelled from the spec: [searchBySubstring] as a tool handler on the
    module-level store, the matching records as an array of [key, fact]
    pairs.  A query that is not a string matches nothing. *)
Definition searchMemoryJs_modelled : Handler :=
  fun query =>
    store <- get_memoryStore ;;
    match query with
    | VString q =>
        ret (VArray (map (fun record => VArray [VString (fst record); snd record])
                         (searchBySubstring q store)))
    | _ => ret (VArray [])
    end.

(** [query] occurs in [text]. *)
Definition Substring (query text : string) : Prop :=
  exists before after, text = before ++ query ++ after.

(** [l] is [l'] with some elements left out, the others in the same
    order. *)
Inductive subsequence {A : Type} : list A -> list A -> Prop :=
| subsequence_nil : subsequence [] []
| subsequence_skip x l l' : subsequence l l' -> subsequence l (x :: l')
| subsequence_keep x l l' : subsequence l l' -> subsequence (x :: l) (x :: l').

(** ** What the design document promises of [save] *)

(** The backing file holds the serialisation of the store, and the store
    holds the fact. *)
Definition persisted (env : Env) (fact : JsValue) (w : World) : Prop :=
  assoc (MEMORY_FILE_PATH env) (disk w)
  = Some (File (Normal (JSON_stringify env (memoryStore w))))
  /\ exists key, assoc key (memoryStore w) = Some fact.

(** The text a tool returned announces a saved fact. *)
Definition reports_success (text : JsValue) : bool :=
  match text with
  | VString s => String.prefix "Fact saved to memory" s
  | _ => false
  end.

(** "After [save] returns, the fact is durably persisted, or the caller is
    informed of a write failure" by the text returned. *)
Definition save_guarantee (env : Env) (fact : JsValue) (w : World) : Prop :=
  match saveMemoryJs env fact w with
  | (Normal text, w') => persisted env fact w' \/ reports_success text = false
  | (Throw _, _) => False
  end.

(** The key [saveMemoryJs] makes in a world. *)
Definition next_key (env : Env) (w : World) : string :=
  "fact_" ++ toISOString env (dates_taken w).

(** The tool message of a request the registry does not resolve. *)
Definition not_found_message (toolCall : ToolCall) : Message :=
  tool_message toolCall
    (VString ("Error: Tool '" ++ function_name toolCall ++ "' not found.")).

(** ** A sample environment and sample worlds *)

(** [JSON.stringify(value, null, 2)] on the values modelled here. *)
Definition hex_digit (n : nat) : ascii :=
  ascii_of_nat (if Nat.ltb n 10 then 48 + n else 87 + n).

Definition quote_char (c : ascii) : string :=
  let n := nat_of_ascii c in
  if Nat.eqb n 34 then String "\" dq
  else if Nat.eqb n 92 then "\\"
  else if Nat.eqb n 8 then "\b"
  else if Nat.eqb n 9 then "\t"
  else if Nat.eqb n 10 then "\n"
  else if Nat.eqb n 12 then "\f"
  else if Nat.eqb n 13 then "\r"
  else if Nat.ltb n 32
       then "\u00" ++ String (hex_digit (n / 16)) (String (hex_digit (n mod 16)) "")
       else String c "".

Fixpoint quote_chars (s : string) : string :=
  match s with
  | EmptyString => ""
  | String c s' => quote_char c ++ quote_chars s'
  end.

Definition QuoteJSONString (s : string) : string := dq ++ quote_chars s ++ dq.

Fixpoint SerializeJSON (indent : string) (v : JsValue) : string :=
  let inner := indent ++ "  " in
  match v with
  | VUndefined | VNull => "null"
  | VBool true => "true"
  | VBool false => "false"
  | VString s => QuoteJSONString s
  | VArray l =>
      match l with
      | [] => "[]"
      | _ =>
          "[" ++ nl ++ inner
          ++ join ("," ++ nl ++ inner)
               ((fix items (l : list JsValue) : list string :=
                   match l with
                   | [] => []
                   | x :: l' => SerializeJSON inner x :: items l'
                   end) l)
          ++ nl ++ indent ++ "]"
      end
  | VObject props =>
      match
        (fix members (l : list (string * JsValue)) : list string :=
           match l with
           | [] => []
           | (k, VUndefined) :: l' => members l'
           | (k, x) :: l' =>
               (QuoteJSONString k ++ ": " ++ SerializeJSON inner x) :: members l'
           end) props
      with
      | [] => "{}"
      | ms => "{" ++ nl ++ inner ++ join ("," ++ nl ++ inner) ms ++ nl ++ indent ++ "}"
      end
  end.

(** Right for a store none of whose keys is an array index, which
    [Object.fromEntries] would move to the front. *)
Definition sample_stringify (store : list (string * JsValue)) : string :=
  SerializeJSON "" (VObject store).

(** Stands for [JSON.parse] on the two texts given to it below. *)
Definition sample_parse (text : string) : Completion JsValue :=
  if String.eqb text "{}" then Normal (VObject [])
  else Throw (mkError "SyntaxError" "Unexpected token in JSON").

Definition sample_clock (n : nat) : string :=
  "2025-06-01T09:30:00.00" ++ string_of_nat n ++ "Z".

(** An environment around a given model. *)
Definition sample_env (model : list Message -> Completion Message) : Env :=
  {| cwd := "/home/user/agent";
     ollama_chat := model;
     toISOString := sample_clock;
     JSON_parse := sample_parse;
     JSON_stringify := sample_stringify;
     globSync := fun _ _ _ _ => Normal [];
     RegExp_new := fun _ => Normal tt;
     RegExp_test := fun _ _ _ => None;
     searchMemoryJs := searchMemoryJs_modelled |}.

Definition assistant_says (text : string) : Message :=
  {| role := "assistant"; content := VString text; tool_calls := None;
     tool_call_id := None; name := None |}.

Definition assistant_requests (toolCalls : list ToolCall) : Message :=
  {| role := "assistant"; content := VString ""; tool_calls := Some toolCalls;
     tool_call_id := None; name := None |}.

(** A model that requests [toolCalls] when the transcript ends with a user
    message and answers [text] otherwise. *)
Definition scripted_model (toolCalls : list ToolCall) (text : string)
           (transcript : list Message) : Completion Message :=
  match last (map role transcript) "" with
  | "user" => Normal (assistant_requests toolCalls)
  | _ => Normal (assistant_says text)
  end.

Definition empty_world : World := mkWorld [] [] [] [] 0.

(** /tmp/notes.txt exists and holds "hello". *)
Definition notes_world : World :=
  mkWorld [ ("/tmp", Directory (Normal ["notes.txt"]));
            ("/tmp/notes.txt", File (Normal "hello")) ]
          [] [] [] 0.

(** The memory file cannot be written. *)
Definition readonly_world : World :=
  mkWorld []
          [ ("/home/user/agent/llm_memory.json",
             OpenFails "EACCES: permission denied, open '/home/user/agent/llm_memory.json'") ]
          [] [] 0.

(** The memory file exists and is not JSON. *)
Definition broken_file_world : World :=
  mkWorld [ ("/home/user/agent/llm_memory.json", File (Normal "{ fact_1: ")) ]
          [] [] [] 0.

Definition read_notes : ToolCall :=
  mkToolCall (VString "call_1") "read_file"
             [("absolute_path", VString "/tmp/notes.txt")].

Definition save_blue : ToolCall :=
  mkToolCall (VString "call_0") "save_memory" [("fact", VString "user likes blue")].

Definition notes_question : string := "what's in /tmp/notes.txt?".

Definition list_all : ToolCall :=
  mkToolCall (VString "call_7") "list_all_memory" [].

Definition memory_question : string := "what do you remember?".

(** The model of the scenario of the design document: it asks for
    /tmp/notes.txt, then answers. *)
Definition notes_env : Env :=
  sample_env (scripted_model [read_notes] "The file says hello.").

(** A model that asks to save a fact and to read the file in one round. *)
Definition save_and_read_env : Env :=
  sample_env (scripted_model [save_blue; read_notes] "Done.").

(** A model that asks for the stored facts, then answers. *)
Definition memory_env : Env :=
  sample_env (scripted_model [list_all] "Nothing yet.").

(** ** The functions outside the registry *)

(** [fs.writeFileSync] accepts a string (or a buffer) as data; any other
    value modelled here makes it throw before it touches the disk. *)
Definition ERR_INVALID_DATA (v : JsValue) : JsError :=
  TypeError ("The " ++ dq ++ "data" ++ dq
             ++ " argument must be of type string or an instance of Buffer, TypedArray, or DataView. Received "
             ++ received v).

Definition file_data (content : JsValue) : Completion string :=
  match content with
  | VString s => Normal s
  | _ => Throw (ERR_INVALID_DATA content)
  end.

(** tools.js exports [writeFileJs]; main.js keeps it out of the registry. *)
Definition writeFileJs (absolutePath content : JsValue) : M JsValue :=
  absolute <- lift (path_isAbsolute absolutePath) ;;
  match absolutePath with
  | VString p =>
      if negb absolute
      then ret (VString ("Error: Path must be absolute. Received: " ++ p))
      else
        try_catch
          (data <- lift (file_data content) ;;
           fs_writeFileSync p data ;;;
           ret (VString ("Successfully wrote to file: " ++ p)))
          (fun e => ret (VString ("Error writing to file: " ++ err_message e)))
  | _ => throw (ERR_INVALID_ARG_TYPE "path" absolutePath)
  end.

(** [fs.mkdirSync]: the path must be free; [write_errors] also lists the
    directories that cannot be made, with the message of the failure. *)
Definition fs_mkdirSync (p : string) : M unit :=
  fun w =>
    match assoc p (disk w) with
    | Some _ =>
        (Throw (mkError "Error" ("EEXIST: file already exists, mkdir '" ++ p ++ "'")), w)
    | None =>
        match assoc p (write_errors w) with
        | Some failure => (Throw (mkError "Error" (failure_message failure)), w)
        | None =>
            (Normal tt, set_disk (create_entry p (Directory (Normal [])) (disk w)) w)
        end
    end.

(** [s.replace(/[:.]/g, "-")] *)
Fixpoint replace_colons_and_dots (s : string) : string :=
  match s with
  | EmptyString => EmptyString
  | String c s' =>
      String (if Ascii.eqb c ":" || Ascii.eqb c "." then "-"%char else c)
             (replace_colons_and_dots s')
  end.

Section History.

Variable env : Env.

(** [JSON.stringify(messages, null, 2)] *)
Variable stringify_messages : list Message -> string.

Definition historyDir : string := path_join (cwd env) "chat_history".

(** The file [saveChatHistory] writes when the clock reads [now]. *)
Definition history_file (now : string) : string :=
  path_join historyDir ("chat_" ++ replace_colons_and_dots now ++ ".json").

(** [saveChatHistory], with the module-level [messages] as an argument. *)
Definition saveChatHistory (messages : list Message) : M unit :=
  if Nat.leb (length messages) 1
  then console_log (nl ++ "대화 내용이 없어 저장하지 않습니다.")
  else
    found <- fs_existsSync historyDir ;;
    (if negb found then fs_mkdirSync historyDir else ret tt) ;;;
    now <- new_Date_toISOString env ;;
    let filePath := history_file now in
    try_catch
      (fs_writeFileSync filePath (stringify_messages messages) ;;;
       console_log (nl ++ "대화 기록이 " ++ filePath ++ " 에 저장되었습니다."))
      (fun e => console_error (nl ++ "대화 기록 저장 중 오류 발생: " ++ err_message e)).

End History.

(** The names [availableFunctions] registers and the names it inherits. *)
Definition registered_names (env : Env) : list string :=
  map fst (availableFunctions env).

Definition inherited_names : list string := map fst Object_prototype.

(** A store of texts, as [saveMemoryJs] builds it from string facts. *)
Definition text_store (facts : list (string * string)) : list (string * JsValue) :=
  map (fun record => (fst record, VString (snd record))) facts.

(** The line of [listAllMemoryJs] for one fact. *)
Definition fact_line (record : string * string) : string :=
  "- " ++ fst record ++ ": " ++ snd record ++ nl.

(** The lines of several facts, one after the other. *)
Fixpoint fact_lines (facts : list (string * string)) : string :=
  match facts with
  | [] => ""
  | record :: rest => fact_line record ++ fact_lines rest
  end.

(** ** More sample environments and worlds *)

(** A clock that does not move between two saves. *)
Definition frozen_clock_env : Env :=
  {| cwd := "/home/user/agent";
     ollama_chat := scripted_model [] "";
     toISOString := fun _ => "2025-06-01T09:30:00.000Z";
     JSON_parse := sample_parse;
     JSON_stringify := sample_stringify;
     globSync := fun _ _ _ _ => Normal [];
     RegExp_new := fun _ => Normal tt;
     RegExp_test := fun _ _ _ => None;
     searchMemoryJs := searchMemoryJs_modelled |}.

Definition blue_store : list (string * JsValue) :=
  [("fact_2025-06-01T09:30:00.000Z", VString "user likes blue")].

(** An environment whose [JSON.parse] also reads back the text of
    [blue_store]. *)
Definition reload_env : Env :=
  {| cwd := "/home/user/agent";
     ollama_chat := scripted_model [] "";
     toISOString := sample_clock;
     JSON_parse :=
       fun text =>
         if String.eqb text (sample_stringify blue_store)
         then Normal (VObject blue_store)
         else sample_parse text;
     JSON_stringify := sample_stringify;
     globSync := fun _ _ _ _ => Normal [];
     RegExp_new := fun _ => Normal tt;
     RegExp_test := fun _ _ _ => None;
     searchMemoryJs := searchMemoryJs_modelled |}.

(** An environment whose [globSync] finds two files, or fails, by the
    pattern. *)
Definition glob_env : Env :=
  {| cwd := "/home/user/agent";
     ollama_chat := scripted_model [] "";
     toISOString := sample_clock;
     JSON_parse := sample_parse;
     JSON_stringify := sample_stringify;
     globSync :=
       fun pattern _ _ _ =>
         match pattern with
         | VString "*.js" => Normal ["/home/user/agent/a.js"; "/home/user/agent/b.js"]
         | VString _ => Normal []
         | _ => Throw (TypeError "invalid pattern")
         end;
     RegExp_new := fun _ => Normal tt;
     RegExp_test := fun _ _ _ => None;
     searchMemoryJs := searchMemoryJs_modelled |}.

(** Two facts are stored. *)
Definition remembering_world : World :=
  mkWorld [] []
          [ ("fact_a", VString "user likes blue");
            ("fact_b", VString "user is called Kim") ]
          [] 0.

(** /tmp/locked.txt is a file that cannot be read. *)
Definition locked_world : World :=
  mkWorld [ ("/tmp", Directory (Normal ["locked.txt"; "notes.txt"]));
            ("/tmp/locked.txt",
             File (Throw (mkError "Error" "EACCES: permission denied, open '/tmp/locked.txt'")));
            ("/tmp/notes.txt", File (Normal "hello")) ]
          [ ("/tmp/locked.txt",
             OpenFails "EACCES: permission denied, open '/tmp/locked.txt'") ]
          [] [] 0.

(** The memory file holds the text of [blue_store]. *)
Definition saved_world : World :=
  mkWorld [ ("/home/user/agent/llm_memory.json",
             File (Normal (sample_stringify blue_store))) ]
          [] [] [] 0.

(** The directory chat_history exists. *)
Definition history_world : World :=
  mkWorld [("/home/user/agent/chat_history", Directory (Normal []))] [] [] [] 0.

(** Stands for [JSON.stringify(messages, null, 2)] where only the place
    of the text matters: the roles of the messages, one per line. *)
Definition sample_stringify_messages (transcript : list Message) : string :=
  join nl (map role transcript).

(** A request for a tool main.js has commented out of the registry. *)
Definition write_request : ToolCall :=
  mkToolCall (VString "call_9") "write_file"
             [("absolute_path", VString "/tmp/out.txt"); ("content", VString "x")].

Definition write_env : Env :=
  sample_env (scripted_model [write_request] "I cannot write files.").

(** * Properties *)

(** ** Helper lemmas on association lists *)

Lemma assoc_set_entry_same (A : Type) (k : string) (v : A) (l : list (string * A)) :
  assoc k (set_entry k v l) = Some v.
Proof.
  induction l as [|[k' v'] l IH]; simpl.
  - now rewrite String.eqb_refl.
  - destruct (String.eqb k k') eqn:E; simpl.
    + now rewrite String.eqb_refl.
    + now rewrite E.
Qed.

(** ** tools.js *)

(** C10. Whatever [pattern], [include] and [searchPath] are, and whatever
    the disk holds, [searchFileContentJs] returns the text "Error searching
    file content: glob is not defined": both branches of [if (include)]
    evaluate the identifier [glob], which tools.js never binds, before any
    file is looked at, and the [catch] around the body turns the
    [ReferenceError] into that text.  No match is ever returned and the
    world is left as it was. *)
Theorem searchFileContentJs_always_glob_error :
  forall (env : Env) (pattern include searchPath : JsValue) (w : World),
    searchFileContentJs env pattern include searchPath w
    = (Normal (VString "Error searching file content: glob is not defined"), w).
Proof.
  intros env pattern include searchPath w.
  unfold searchFileContentJs, try_catch, bind.
  destruct (truthy include); reflexivity.
Qed.

Lemma saveMemoryToFile_returns (env : Env) (store : list (string * JsValue)) (w : World) :
  exists w', saveMemoryToFile env store w = (Normal tt, w')
             /\ memoryStore w' = memoryStore w
             /\ dates_taken w' = dates_taken w.
Proof.
  unfold saveMemoryToFile, try_catch, fs_writeFileSync, console_error.
  destruct (assoc (MEMORY_FILE_PATH env) (write_errors w)) as [[m|n m]|];
    simpl; eauto.
  destruct (assoc (MEMORY_FILE_PATH env) (disk w)) as [[c|l|c]|]; simpl; eauto.
Qed.

(** C7. Round trip through the memory store, for every fact string and
    every world: [saveMemoryJs fact] returns normally with a text that
    carries the new key, the store then maps that key to the fact itself,
    and [retrieveMemoryJs] on that key answers with the fact, unchanged,
    after its fixed prefix. *)
Theorem save_then_retrieve_round_trip :
  forall (env : Env) (fact : string) (w : World),
    let key := next_key env w in
    exists w',
      saveMemoryJs env (VString fact) w
      = (Normal (VString ("Fact saved to memory with key: " ++ key
                          ++ ". Total facts: "
                          ++ string_of_nat (length (memoryStore w')))), w')
      /\ Map_get (VString key) (memoryStore w') = Some (VString fact)
      /\ retrieveMemoryJs (VString key) w'
         = (Normal (VString ("Retrieved fact for key '" ++ key ++ "': " ++ fact)), w').
Proof.
  intros env fact w key.
  unfold saveMemoryJs, bind, new_Date_toISOString, get_memoryStore,
    set_memoryStore; simpl.
  fold (next_key env w). fold key.
  match goal with
  | |- context [saveMemoryToFile env ?s ?w0] =>
      destruct (saveMemoryToFile_returns env s w0) as [w' [E [Hm _]]]
  end.
  simpl in Hm.
  exists w'. rewrite E. unfold ret. rewrite Hm.
  split; [reflexivity|].
  split.
  - simpl. apply assoc_set_entry_same.
  - unfold retrieveMemoryJs, bind, get_memoryStore, Map_get, lift, ret.
    rewrite Hm, assoc_set_entry_same. reflexivity.
Qed.

(** C9. Loading the memory store.  It never throws, in any world.  When
    the backing file is absent the result is the empty store and the world
    is untouched.  When the file is there and readable but [JSON.parse]
    rejects its text, the result is the empty store again and one line,
    "Error loading memory from file: " followed by the parser's message,
    has been written with [console.error]. *)
Theorem loadMemoryFromFile_absent_or_malformed :
  forall (env : Env) (w : World),
    (exists store w', loadMemoryFromFile env w = (Normal store, w'))
    /\ (assoc (MEMORY_FILE_PATH env) (disk w) = None ->
        loadMemoryFromFile env w = (Normal [], w))
    /\ (forall data e,
           assoc (MEMORY_FILE_PATH env) (disk w) = Some (File (Normal data)) ->
           JSON_parse env data = Throw e ->
           loadMemoryFromFile env w
           = (Normal [],
              write_console Stderr
                ("Error loading memory from file: " ++ err_message e) w)).
Proof.
  intros env w.
  unfold loadMemoryFromFile, bind, try_catch, fs_existsSync, fs_readFileSync,
    lift, ret, console_error.
  split; [|split].
  - destruct (assoc (MEMORY_FILE_PATH env) (disk w)) as [[[data|e]|l|[data|e]]|] eqn:E;
      simpl; rewrite ?E; simpl; eauto.
    + destruct (JSON_parse env data) as [parsed|e]; simpl; eauto.
      destruct (Object_entries parsed); simpl; eauto.
    + destruct (JSON_parse env data) as [parsed|e]; simpl; eauto.
      destruct (Object_entries parsed); simpl; eauto.
  - intros H. rewrite H. reflexivity.
  - intros data e H P. rewrite H. simpl. rewrite H, P. reflexivity.
Qed.

Lemma loadMemoryFromFile_absent_or_malformed_witness :
  loadMemoryFromFile (sample_env (scripted_model [] "")) empty_world
  = (Normal [], empty_world)
  /\ loadMemoryFromFile (sample_env (scripted_model [] "")) broken_file_world
     = (Normal [],
        write_console Stderr
          "Error loading memory from file: Unexpected token in JSON"
          broken_file_world).
Proof.
  split.
  - apply (proj1 (proj2 (loadMemoryFromFile_absent_or_malformed
                           (sample_env (scripted_model [] "")) empty_world))).
    reflexivity.
  - apply (proj2 (proj2 (loadMemoryFromFile_absent_or_malformed
                           (sample_env (scripted_model [] "")) broken_file_world))
             "{ fact_1: " (mkError "SyntaxError" "Unexpected token in JSON"));
      reflexivity.
Defined.

(** C4, as the design document states it, fails: when the backing file
    cannot be written, [saveMemoryJs] still returns "Fact saved to memory
    with key: ...", and nothing has reached the disk. *)
Lemma save_guarantee_fails_on_readonly_disk :
  ~ save_guarantee (sample_env (scripted_model [] ""))
      (VString "user likes blue") readonly_world.
Proof.
  unfold save_guarantee, persisted.
  vm_compute.
  intros [[H _]|H]; discriminate.
Qed.

(** C4, amended.  [saveMemoryJs] always returns normally, and always with
    the same text, "Fact saved to memory with key: K. Total facts: N",
    where K is the new key and N the size of the store; the store then maps
    K to the fact.  When the backing file, absent or a readable regular
    file, can be written, it holds the serialised store afterwards and the
    console is untouched.  When the write fails, in either way,
    [saveMemoryToFile] catches the error and the only report is the line
    "Error saving memory to file: " followed by the message, written with
    [console.error]; the returned text does not mention it. *)
Theorem saveMemoryJs_reports_success_whatever_the_write :
  forall (env : Env) (fact : JsValue) (w : World),
    let key := next_key env w in
    let store := set_entry key fact (memoryStore w) in
    exists w',
      saveMemoryJs env fact w
      = (Normal (VString ("Fact saved to memory with key: " ++ key
                          ++ ". Total facts: " ++ string_of_nat (length store))),
         w')
      /\ memoryStore w' = store
      /\ (assoc (MEMORY_FILE_PATH env) (write_errors w) = None ->
          (assoc (MEMORY_FILE_PATH env) (disk w) = None
           \/ exists old,
               assoc (MEMORY_FILE_PATH env) (disk w) = Some (File (Normal old))) ->
          persisted env fact w' /\ console w' = console w)
      /\ (forall failure,
             assoc (MEMORY_FILE_PATH env) (write_errors w) = Some failure ->
             console w'
             = console (write_console Stderr
                          ("Error saving memory to file: "
                           ++ failure_message failure) w)).
Proof.
  intros env fact w key store.
  unfold saveMemoryJs, bind, new_Date_toISOString, get_memoryStore,
    set_memoryStore, saveMemoryToFile, try_catch, fs_writeFileSync,
    console_error, ret; simpl.
  fold (next_key env w). fold key. fold store.
  destruct (assoc (MEMORY_FILE_PATH env) (write_errors w)) as [[m|n m]|] eqn:E;
    simpl.
  - eexists. split; [reflexivity|]. split; [reflexivity|]. split.
    + discriminate.
    + intros failure H. injection H as <-. reflexivity.
  - eexists. split; [reflexivity|]. split; [reflexivity|]. split.
    + discriminate.
    + intros failure H. injection H as <-. reflexivity.
  - destruct (assoc (MEMORY_FILE_PATH env) (disk w)) as [[[old|e]|l|c]|] eqn:D;
      simpl; (eexists; split; [reflexivity|]; split; [reflexivity|];
              split; [|discriminate]);
      intros _ [F|[old' F]]; try discriminate.
    + split; [|reflexivity]. unfold persisted, store_file; simpl. rewrite D.
      split; [apply assoc_set_entry_same | exists key; apply assoc_set_entry_same].
    + split; [|reflexivity]. unfold persisted, store_file, create_entry; simpl.
      rewrite D.
      split; [apply assoc_set_entry_same | exists key; apply assoc_set_entry_same].
Qed.

Lemma saveMemoryJs_reports_success_witness :
  exists w',
    saveMemoryJs (sample_env (scripted_model [] "")) (VString "user likes blue")
                 readonly_world
    = (Normal (VString "Fact saved to memory with key: fact_2025-06-01T09:30:00.000Z. Total facts: 1"),
       w')
    /\ console w'
       = [(Stderr, "Error saving memory to file: EACCES: permission denied, open '/home/user/agent/llm_memory.json'")].
Proof.
  destruct (saveMemoryJs_reports_success_whatever_the_write
              (sample_env (scripted_model [] "")) (VString "user likes blue")
              readonly_world) as [w' [E [_ [_ F]]]].
  exists w'. split; [exact E|].
  exact (F (OpenFails "EACCES: permission denied, open '/home/user/agent/llm_memory.json'")
           eq_refl).
Defined.

(** ** main.js: the dispatch loop *)

Section Loop.

Variable env : Env.

(** A round that completes has appended one tool message per request, in
    the order of the requests, each with the id and the name of its
    request. *)
Lemma run_toolCalls_appends (toolCalls : list ToolCall) :
  forall (workingMessages workingMessages' : list Message) (w w' : World),
    run_toolCalls env toolCalls workingMessages w = (Normal workingMessages', w') ->
    exists outputs,
      length outputs = length toolCalls
      /\ workingMessages'
         = (workingMessages
              ++ map (fun p => tool_message (fst p) (snd p))
                     (combine toolCalls outputs))%list.
Proof.
  induction toolCalls as [|toolCall rest IH]; intros wm wm' w w' H; simpl in H.
  - injection H as <- <-. exists []. split; [reflexivity|].
    simpl. now rewrite app_nil_r.
  - unfold bind in H.
    destruct (call_tool env toolCall w) as [[toolOutput|e] w1]; [|discriminate].
    apply IH in H. destruct H as [outputs [L ->]].
    exists (toolOutput :: outputs). split; [simpl; now rewrite L|].
    simpl. now rewrite <- app_assoc.
Qed.

Lemma run_toolCalls_ids (toolCalls : list ToolCall) :
  forall (workingMessages workingMessages' : list Message) (w w' : World),
    run_toolCalls env toolCalls workingMessages w = (Normal workingMessages', w') ->
    exists appended,
      workingMessages' = (workingMessages ++ appended)%list
      /\ map role appended = map (fun _ => "tool") toolCalls
      /\ map tool_call_id appended = map (fun toolCall => Some (id toolCall)) toolCalls.
Proof.
  intros wm wm' w w' H.
  apply run_toolCalls_appends in H. destruct H as [outputs [L ->]].
  eexists. split; [reflexivity|].
  clear wm. revert outputs L.
  induction toolCalls as [|toolCall rest IH]; intros [|o outputs] L;
    try discriminate; simpl.
  - split; reflexivity.
  - injection L as L. destruct (IH outputs L) as [-> ->]. split; reflexivity.
Qed.

(** A name that [availableFunctions] resolves to nothing gets the "not
    found" text, and the loop goes on. *)
Lemma call_tool_not_found (toolCall : ToolCall) (w : World) :
  get_property env (function_name toolCall) = PUndefined ->
  call_tool env toolCall w
  = (Normal (VString ("Error: Tool '" ++ function_name toolCall ++ "' not found.")), w).
Proof.
  intros H. unfold call_tool. now rewrite H.
Qed.

(** A round all of whose requests resolve to nothing appends one "not
    found" message per request and asks the model again. *)
Lemma run_toolCalls_not_found (toolCalls : list ToolCall) :
  forall (workingMessages : list Message) (w : World),
    Forall (fun toolCall => get_property env (function_name toolCall) = PUndefined)
           toolCalls ->
    run_toolCalls env toolCalls workingMessages w
    = (Normal (workingMessages ++ map not_found_message toolCalls)%list, w).
Proof.
  induction toolCalls as [|toolCall rest IH]; intros wm w H; simpl.
  - now rewrite app_nil_r.
  - inversion H as [|? ? Hd Tl]; subst.
    unfold bind. rewrite (call_tool_not_found toolCall w Hd).
    rewrite (IH _ w Tl). now rewrite <- app_assoc.
Qed.

Lemma round_of_unknown_tools_goes_on (fuel : nat) (currentMessages : list Message)
      (w : World) (assistantMessage : Message) (toolCall : ToolCall)
      (rest : list ToolCall) :
  ollama_chat env currentMessages = Normal assistantMessage ->
  tool_calls assistantMessage = Some (toolCall :: rest) ->
  Forall (fun toolCall => get_property env (function_name toolCall) = PUndefined)
         (toolCall :: rest) ->
  processChatWithTools env (S fuel) currentMessages w
  = processChatWithTools env fuel
      ((currentMessages ++ [assistantMessage])
         ++ map not_found_message (toolCall :: rest))%list w.
Proof.
  intros C T U. cbn [processChatWithTools]. rewrite C, T.
  now rewrite (run_toolCalls_not_found (toolCall :: rest) _ w U).
Qed.

Lemma processChatWithTools_extends (fuel : nat) :
  forall (currentMessages updatedMessages : list Message) (w w' : World),
    processChatWithTools env fuel currentMessages w = Returned updatedMessages w' ->
    exists appended,
      appended <> []
      /\ updatedMessages = (currentMessages ++ appended)%list.
Proof.
  induction fuel as [|fuel IH]; intros current updated w w' H; simpl in H;
    [discriminate|].
  destruct (ollama_chat env current) as [assistantMessage|e]; [|discriminate].
  assert (Last : forall appended : list Message,
             (assistantMessage :: appended) <> []) by (intros ? ?; discriminate).
  destruct (tool_calls assistantMessage) as [[|toolCall rest]|].
  - injection H as <- _. exists [assistantMessage]. split; [apply Last|reflexivity].
  - destruct (run_toolCalls env (toolCall :: rest)
                (current ++ [assistantMessage])%list w)
      as [[wm|e] w1] eqn:R; [|discriminate].
    apply run_toolCalls_ids in R. destruct R as [tools [-> _]].
    apply IH in H. destruct H as [appended [_ ->]].
    exists (assistantMessage :: tools ++ appended)%list.
    split; [apply Last|].
    now rewrite <- !app_assoc.
  - injection H as <- _. exists [assistantMessage]. split; [apply Last|reflexivity].
Qed.

Lemma askQuestion_keeps_head (fuel : nat) (userQuery : string)
      (transcript : list Message) (w : World) (first : Message) :
  hd_error transcript = Some first ->
  hd_error (session_messages (askQuestion env fuel userQuery transcript w))
  = Some first.
Proof.
  intros H. unfold askQuestion.
  destruct (String.eqb (toLowerCase userQuery) "exit"); [exact H|].
  destruct transcript as [|m transcript]; [discriminate|].
  destruct (processChatWithTools env fuel ((m :: transcript) ++ [user_message userQuery])%list w)
    as [updated w'|e w'|wm w'] eqn:P; simpl; try exact H.
  apply processChatWithTools_extends in P. destruct P as [appended [_ ->]].
  exact H.
Qed.

Lemma run_session_keeps_head (fuel : nat) (lines : list string) :
  forall (transcript : list Message) (w : World) (first : Message),
    hd_error transcript = Some first ->
    hd_error (session_messages (run_session env fuel lines transcript w))
    = Some first.
Proof.
  induction lines as [|userQuery rest IH]; intros transcript w first H; simpl.
  - exact H.
  - pose proof (askQuestion_keeps_head fuel userQuery transcript w first H) as K.
    destruct (askQuestion env fuel userQuery transcript w) as [m w'|m|m w'];
      simpl in K |- *; auto.
Qed.

End Loop.

(** C8. The transcript invariant.  Whenever [processChatWithTools]
    returns, what it returns is the transcript it was given followed by at
    least one new message: nothing before the end is dropped, reordered or
    changed.  And through a whole session, whatever the user types and
    whatever the model and the tools do, the first message of [messages]
    is the system directive it was initialised with. *)
Theorem transcript_grows_and_keeps_system_message :
  forall (env : Env),
    (forall fuel currentMessages w updatedMessages w',
        processChatWithTools env fuel currentMessages w
        = Returned updatedMessages w' ->
        exists appended,
          appended <> []
          /\ updatedMessages = (currentMessages ++ appended)%list)
    /\ (forall fuel lines w,
           hd_error (session_messages
                       (run_session env fuel lines (messages env) w))
           = Some (system_message env)).
Proof.
  intros env. split.
  - intros fuel current w updated w' H.
    exact (processChatWithTools_extends env fuel current updated w w' H).
  - intros fuel lines w. now apply run_session_keeps_head.
Qed.

Lemma transcript_grows_witness :
  (exists appended,
      appended <> []
      /\ [ system_message memory_env;
           user_message memory_question;
           assistant_requests [list_all];
           tool_message list_all (VString "No facts currently stored in memory.");
           assistant_says "Nothing yet." ]
         = ([system_message memory_env; user_message memory_question]
              ++ appended)%list)
  /\ hd_error (session_messages
                 (run_session memory_env 2 [memory_question; "Exit"]
                              (messages memory_env) empty_world))
     = Some (system_message memory_env).
Proof.
  split.
  - apply (proj1 (transcript_grows_and_keeps_system_message memory_env)
             2 [system_message memory_env; user_message memory_question]
             empty_world _ empty_world).
    reflexivity.
  - apply (proj2 (transcript_grows_and_keeps_system_message memory_env)).
Defined.

(** C2, at the failing input.  A request for [read_file] or
    [list_directory] resolves in the registry, and its handler throws out
    of the loop whatever the arguments are: the loop calls it with the
    whole arguments object, [path.isAbsolute] rejects an object with a
    [TypeError] before the handler's own [try] block is entered, and
    nothing in [processChatWithTools] catches it.  No tool message is
    produced; the promise of the loop rejects. *)
Theorem read_file_request_rejects_the_loop :
  forall (env : Env) (i : JsValue) (args : list (string * JsValue)) (w : World),
    call_tool env (mkToolCall i "read_file" args) w
    = (Throw (ERR_INVALID_ARG_TYPE "path" (VObject args)), w)
    /\ call_tool env (mkToolCall i "list_directory" args) w
       = (Throw (ERR_INVALID_ARG_TYPE "path" (VObject args)), w)
    /\ forall text transcript,
        processChatWithTools
          (sample_env (scripted_model [mkToolCall i "read_file" args] text))
          1 (transcript ++ [user_message notes_question])%list w
        = Rejected (ERR_INVALID_ARG_TYPE "path" (VObject args)) w.
Proof.
  intros env i args w. split; [reflexivity|]. split; [reflexivity|].
  intros text transcript.
  assert (M : scripted_model [mkToolCall i "read_file" args] text
                (transcript ++ [user_message notes_question])%list
              = Normal (assistant_requests [mkToolCall i "read_file" args])).
  { unfold scripted_model. rewrite map_app. simpl map. now rewrite last_last. }
  cbn [processChatWithTools ollama_chat sample_env]. rewrite M.
  reflexivity.
Qed.

(** C3, at the failing input: the scenario of the design document.  The
    file /tmp/notes.txt holds "hello" and [readFileJs] called with the
    path returns "hello"; but the loop calls it with the object
    [{absolute_path: "/tmp/notes.txt"}], so the round ends in a
    [TypeError], no tool message with content "hello" is appended and the
    model is not asked again. *)
Theorem notes_scenario_rejects :
  readFileJs (VString "/tmp/notes.txt") notes_world
  = (Normal (VString "hello"), notes_world)
  /\ processChatWithTools notes_env 2
       [system_message notes_env; user_message notes_question] notes_world
     = Rejected
         (ERR_INVALID_ARG_TYPE "path"
            (VObject [("absolute_path", VString "/tmp/notes.txt")]))
         notes_world.
Proof.
  split; reflexivity.
Qed.

(** C1, at a failing input: a round with two requests, [save_memory] and
    [read_file].  The first handler runs (the store has the new entry, the
    whole arguments object); the second throws, so the round appends fewer
    tool messages than requests, returns no transcript and the model is
    not called again. *)
Theorem round_with_read_file_is_cut_short :
  exists w',
    run_toolCalls save_and_read_env [save_blue; read_notes]
      [system_message save_and_read_env; user_message notes_question;
       assistant_requests [save_blue; read_notes]] notes_world
    = (Throw (ERR_INVALID_ARG_TYPE "path"
                (VObject [("absolute_path", VString "/tmp/notes.txt")])), w')
    /\ processChatWithTools save_and_read_env 2
         [system_message save_and_read_env; user_message notes_question]
         notes_world
       = Rejected
           (ERR_INVALID_ARG_TYPE "path"
              (VObject [("absolute_path", VString "/tmp/notes.txt")])) w'
    /\ memoryStore w'
       = [("fact_2025-06-01T09:30:00.000Z",
           VObject [("fact", VString "user likes blue")])].
Proof.
  eexists. split; [vm_compute; reflexivity|]. split; reflexivity.
Qed.

(** C6, at failing inputs.  [availableFunctions] is an object literal, so
    a name it does not register can still resolve along its prototype
    chain.  "toString" is not among its own properties, yet the request is
    dispatched to [Object.prototype.toString] and the tool message carries
    "[object Undefined]" instead of the "not found" text; "valueOf" and
    "__proto__" make the loop throw. *)
Theorem inherited_names_are_dispatched :
  forall (env : Env) (i : JsValue) (args : list (string * JsValue)) (w : World),
    assoc "toString" (availableFunctions env) = None
    /\ call_tool env (mkToolCall i "toString" args) w
       = (Normal (VString "[object Undefined]"), w)
    /\ call_tool env (mkToolCall i "valueOf" args) w
       = (Throw no_receiver, w)
    /\ call_tool env (mkToolCall i "__proto__" args) w
       = (Throw (TypeError "functionToCall is not a function"), w).
Proof.
  intros env i args w. repeat split.
Qed.

(** main.js imports [searchMemoryJs] from tools.js, and the tools.js at
    hand exports no such name, nor binds it. *)
Lemma searchMemoryJs_is_not_exported :
  unresolved_imports main_js_imports tools_js_exports = ["searchMemoryJs"]
  /\ existsb (String.eqb "searchMemoryJs") tools_js_scope = false.
Proof.
  split; reflexivity.
Qed.

(** ** The search operation, as the design document describes it *)

Lemma prefix_iff (query text : string) :
  String.prefix query text = true <-> exists after, text = query ++ after.
Proof.
  revert text. induction query as [|c query IH]; intros [|c' text]; simpl.
  - split; [intros _; now exists "" | reflexivity].
  - split; [intros _; now exists (String c' text) | reflexivity].
  - split; [discriminate | intros [after H]; discriminate].
  - destruct (ascii_dec c c') as [<-|N].
    + rewrite IH. split; intros [after H]; exists after.
      * now rewrite H.
      * now injection H.
    + split; [discriminate|].
      intros [after H]. injection H as H _. now elim N.
Qed.

Lemma includes_iff (query text : string) :
  includes query text = true <-> Substring query text.
Proof.
  unfold Substring. induction text as [|c text IH]; cbn [includes].
  - rewrite orb_false_r, prefix_iff. split.
    + intros [after H]. now exists "", after.
    + intros [before [after H]].
      destruct before as [|b before]; [|discriminate].
      now exists after.
  - rewrite orb_true_iff, IH, prefix_iff. split.
    + intros [[after H]|[before [after H]]].
      * now exists "", after.
      * exists (String c before), after. simpl. now rewrite H.
    + intros [before [after H]].
      destruct before as [|b before]; simpl in H.
      * left. now exists after.
      * right. injection H as _ H. now exists before, after.
Qed.

Lemma filter_subsequence (A : Type) (keep : A -> bool) (l : list A) :
  subsequence (filter keep l) l.
Proof.
  induction l as [|x l IH]; simpl.
  - constructor.
  - destruct (keep x); now constructor.
Qed.

(** C5. The search of the memory store, modelled from its description:
    for every query and every store, the result holds exactly the records
    of the store whose value is a text in which the query occurs, compared
    character by character (so with case), and it lists them in the order
    of the store, which is the order of insertion. *)
Theorem searchBySubstring_exact_and_ordered :
  forall (query : string) (store : list (string * JsValue)),
    subsequence (searchBySubstring query store) store
    /\ forall key value,
        In (key, value) (searchBySubstring query store)
        <-> In (key, value) store
            /\ exists fact, value = VString fact /\ Substring query fact.
Proof.
  intros query store. split.
  - apply filter_subsequence.
  - intros key value. unfold searchBySubstring.
    rewrite filter_In. simpl. split.
    + intros [H I]. split; [exact H|].
      destruct value; try discriminate.
      eexists. split; [reflexivity|]. now apply includes_iff.
    + intros [H [fact [-> I]]]. split; [exact H|]. now apply includes_iff.
Qed.

(** * Further properties of the code *)

(** ** Helper lemmas *)

Lemma string_app_assoc (a b c : string) : (a ++ b) ++ c = a ++ b ++ c.
Proof.
  induction a as [|x a IH]; simpl; [reflexivity | now rewrite IH].
Qed.

Lemma string_app_nil_r (a : string) : a ++ "" = a.
Proof.
  induction a as [|x a IH]; simpl; [reflexivity | now rewrite IH].
Qed.

Lemma assoc_set_entry_other (A : Type) (k k' : string) (v : A) (l : list (string * A)) :
  k' <> k -> assoc k' (set_entry k v l) = assoc k' l.
Proof.
  intros N. induction l as [|[k0 v0] l IH]; simpl.
  - destruct (String.eqb k' k) eqn:E; [|reflexivity].
    apply String.eqb_eq in E. contradiction.
  - destruct (String.eqb k k0) eqn:E; simpl.
    + apply String.eqb_eq in E. subst k0.
      destruct (String.eqb k' k) eqn:E'; [|reflexivity].
      apply String.eqb_eq in E'. contradiction.
    + now rewrite IH.
Qed.

Lemma path_isAbsolute_string (p : string) :
  exists absolute, path_isAbsolute (VString p) = Normal absolute.
Proof.
  destruct p; simpl; eauto.
Qed.

(** Unfolds the monad and the file system in the goal. *)
Ltac run_js :=
  unfold bind, lift, ret, throw, try_catch, fs_existsSync, fs_lstatSync,
    fs_readFileSync, fs_readdirSync, fs_writeFileSync, console_log,
    console_error, get_memoryStore, set_memoryStore.

(** ** tools.js: the file tools called with a path *)

(** X1. [readFileJs] called with a string, as its JSDoc asks: it never
    throws and never changes the world, and its answer is, in the order of
    its checks: the "must be absolute" text for a path that does not start
    with a slash; the "not found" text when nothing is at the path; the
    "not a file" text for a directory or another entry; the content of
    the file; or, when the read itself fails, "Error reading file: " with
    the message of the error. *)
Theorem readFileJs_on_a_string_path :
  forall (p : string) (w : World),
    (exists text, readFileJs (VString p) w = (Normal (VString text), w))
    /\ (path_isAbsolute (VString p) = Normal false ->
        readFileJs (VString p) w
        = (Normal (VString ("Error: Path must be absolute. Received: " ++ p)), w))
    /\ (path_isAbsolute (VString p) = Normal true ->
        (assoc p (disk w) = None ->
         readFileJs (VString p) w
         = (Normal (VString ("Error: File not found at " ++ p)), w))
        /\ (forall entry,
               assoc p (disk w) = Some entry -> isFile entry = false ->
               readFileJs (VString p) w
               = (Normal (VString ("Error: Path is not a file: " ++ p)), w))
        /\ (forall text,
               assoc p (disk w) = Some (File (Normal text)) ->
               readFileJs (VString p) w = (Normal (VString text), w))
        /\ (forall e,
               assoc p (disk w) = Some (File (Throw e)) ->
               readFileJs (VString p) w
               = (Normal (VString ("Error reading file: " ++ err_message e)), w))).
Proof.
  intros p w.
  destruct (path_isAbsolute_string p) as [absolute A].
  unfold readFileJs. run_js. rewrite A.
  destruct absolute; cbn beta iota; cbn [negb].
  - split.
    + destruct (assoc p (disk w)) as [[[text|e]|l|]|] eqn:E; simpl;
        repeat (rewrite E; simpl); eauto.
    + split; [discriminate|]. intros _. repeat split.
      * intros E. now rewrite E.
      * intros entry E F.
        repeat (cbn beta iota zeta; cbn [negb]; first [rewrite E | rewrite F]).
        reflexivity.
      * intros text E. now repeat (rewrite E; simpl).
      * intros e E. now repeat (rewrite E; simpl).
  - split; [eauto|]. split; [reflexivity | discriminate].
Qed.

Lemma readFileJs_on_a_string_path_witness :
  readFileJs (VString "notes.txt") notes_world
  = (Normal (VString "Error: Path must be absolute. Received: notes.txt"), notes_world)
  /\ readFileJs (VString "/tmp/none.txt") notes_world
     = (Normal (VString "Error: File not found at /tmp/none.txt"), notes_world)
  /\ readFileJs (VString "/tmp") notes_world
     = (Normal (VString "Error: Path is not a file: /tmp"), notes_world)
  /\ readFileJs (VString "/tmp/locked.txt") locked_world
     = (Normal (VString "Error reading file: EACCES: permission denied, open '/tmp/locked.txt'"),
        locked_world).
Proof.
  split; [|split; [|split]].
  - apply (proj1 (proj2 (readFileJs_on_a_string_path "notes.txt" notes_world))).
    reflexivity.
  - apply (proj1 (proj2 (proj2 (readFileJs_on_a_string_path "/tmp/none.txt" notes_world))
                    eq_refl)).
    reflexivity.
  - apply (proj1 (proj2 (proj2 (proj2 (readFileJs_on_a_string_path "/tmp" notes_world))
                           eq_refl))
             (Directory (Normal ["notes.txt"]))); reflexivity.
  - apply (proj2 (proj2 (proj2 (proj2 (proj2 (readFileJs_on_a_string_path
                                                "/tmp/locked.txt" locked_world))
                                         eq_refl)))
             (mkError "Error" "EACCES: permission denied, open '/tmp/locked.txt'")).
    reflexivity.
Defined.

(** X2. [listDirectoryJs] called with a string: it never throws and never
    changes the world.  A path without a leading slash, a missing path and
    a path that is not a directory each get their own error text; a
    directory gives the names of its entries, one per line, in the order
    [readdirSync] lists them (the empty text for an empty directory); a
    failed listing gives "Error listing directory: " and the message. *)
Theorem listDirectoryJs_on_a_string_path :
  forall (p : string) (w : World),
    (exists text, listDirectoryJs (VString p) w = (Normal (VString text), w))
    /\ (path_isAbsolute (VString p) = Normal false ->
        listDirectoryJs (VString p) w
        = (Normal (VString ("Error: Path must be absolute. Received: " ++ p)), w))
    /\ (path_isAbsolute (VString p) = Normal true ->
        (assoc p (disk w) = None ->
         listDirectoryJs (VString p) w
         = (Normal (VString ("Error: Directory not found at " ++ p)), w))
        /\ (forall entry,
               assoc p (disk w) = Some entry -> isDirectory entry = false ->
               listDirectoryJs (VString p) w
               = (Normal (VString ("Error: Path is not a directory: " ++ p)), w))
        /\ (forall items,
               assoc p (disk w) = Some (Directory (Normal items)) ->
               listDirectoryJs (VString p) w = (Normal (VString (join nl items)), w))
        /\ (forall e,
               assoc p (disk w) = Some (Directory (Throw e)) ->
               listDirectoryJs (VString p) w
               = (Normal (VString ("Error listing directory: " ++ err_message e)), w))).
Proof.
  intros p w.
  destruct (path_isAbsolute_string p) as [absolute A].
  unfold listDirectoryJs. run_js. rewrite A.
  destruct absolute; cbn beta iota; cbn [negb].
  - split.
    + destruct (assoc p (disk w)) as [[c|[items|e]|]|] eqn:E; simpl;
        repeat (rewrite E; simpl); eauto.
    + split; [discriminate|]. intros _. repeat split.
      * intros E. now rewrite E.
      * intros entry E F.
        repeat (cbn beta iota zeta; cbn [negb]; first [rewrite E | rewrite F]).
        reflexivity.
      * intros items E. now repeat (rewrite E; simpl).
      * intros e E. now repeat (rewrite E; simpl).
  - split; [eauto|]. split; [reflexivity | discriminate].
Qed.

Lemma listDirectoryJs_on_a_string_path_witness :
  listDirectoryJs (VString "/tmp") locked_world
  = (Normal (VString ("locked.txt" ++ nl ++ "notes.txt")), locked_world)
  /\ listDirectoryJs (VString "/tmp/notes.txt") locked_world
     = (Normal (VString "Error: Path is not a directory: /tmp/notes.txt"), locked_world).
Proof.
  split.
  - apply (proj1 (proj2 (proj2 (proj2 (proj2 (listDirectoryJs_on_a_string_path
                                                "/tmp" locked_world))
                                         eq_refl)))
             ["locked.txt"; "notes.txt"]).
    reflexivity.
  - apply (proj1 (proj2 (proj2 (proj2 (listDirectoryJs_on_a_string_path
                                         "/tmp/notes.txt" locked_world))
                           eq_refl))
             (File (Normal "hello"))); reflexivity.
Defined.

(** X3. Writing a file and reading it back.  For an absolute path that
    is free or holds a readable regular file, and on which the write does
    not fail, [writeFileJs] with a text answers "Successfully wrote to
    file: " and the path, and afterwards [readFileJs] on that same path
    returns exactly the text written, whatever the file held before. *)
Theorem writeFileJs_then_readFileJs :
  forall (p text : string) (w : World),
    path_isAbsolute (VString p) = Normal true ->
    (assoc p (disk w) = None
     \/ exists old, assoc p (disk w) = Some (File (Normal old))) ->
    assoc p (write_errors w) = None ->
    exists w',
      writeFileJs (VString p) (VString text) w
      = (Normal (VString ("Successfully wrote to file: " ++ p)), w')
      /\ readFileJs (VString p) w' = (Normal (VString text), w').
Proof.
  intros p text w A D W.
  assert (S : assoc p (store_file p text (disk w)) = Some (File (Normal text))).
  { unfold store_file, create_entry.
    destruct D as [D|[old D]]; rewrite D; apply assoc_set_entry_same. }
  assert (N : match assoc p (disk w) with
              | Some (Directory _) => False
              | _ => True
              end) by (destruct D as [D|[old D]]; now rewrite D).
  unfold writeFileJs. run_js. rewrite A. cbn beta iota; cbn [negb file_data].
  rewrite W. cbn beta iota.
  destruct (assoc p (disk w)) as [[c|l|c]|]; try contradiction; cbn beta iota;
    (eexists; split; [reflexivity|]);
    unfold readFileJs; run_js; rewrite A; cbn beta iota; cbn [negb disk set_disk];
    repeat (rewrite S; cbn beta iota zeta; cbn [negb isFile disk set_disk]);
    reflexivity.
Qed.

Lemma writeFileJs_then_readFileJs_witness :
  exists w',
    writeFileJs (VString "/tmp/notes.txt") (VString "hello again") notes_world
    = (Normal (VString "Successfully wrote to file: /tmp/notes.txt"), w')
    /\ readFileJs (VString "/tmp/notes.txt") w' = (Normal (VString "hello again"), w').
Proof.
  exact (writeFileJs_then_readFileJs "/tmp/notes.txt" "hello again" notes_world
           eq_refl (or_intror (ex_intro _ "hello" eq_refl)) eq_refl).
Defined.

(** X4. What [writeFileJs] answers when it cannot write, for a string
    path: it never throws.  A path without a leading slash is refused
    before the disk is touched.  When [fs.writeFileSync] throws, in either
    way, the error is caught and the answer is "Error writing to file: "
    with the message.  When the content is not a string, the error of the
    validation is caught in the same way, before anything is opened. *)
Theorem writeFileJs_failures_are_text :
  forall (p : string) (content : JsValue) (w : World),
    (exists text w', writeFileJs (VString p) content w = (Normal (VString text), w'))
    /\ (path_isAbsolute (VString p) = Normal false ->
        writeFileJs (VString p) content w
        = (Normal (VString ("Error: Path must be absolute. Received: " ++ p)), w))
    /\ (path_isAbsolute (VString p) = Normal true ->
        (forall text failure,
            content = VString text ->
            assoc p (write_errors w) = Some failure ->
            fst (writeFileJs (VString p) content w)
            = Normal (VString ("Error writing to file: " ++ failure_message failure)))
        /\ (forall e,
               file_data content = Throw e ->
               writeFileJs (VString p) content w
               = (Normal (VString ("Error writing to file: " ++ err_message e)), w))).
Proof.
  intros p content w.
  destruct (path_isAbsolute_string p) as [absolute A].
  unfold writeFileJs. run_js. rewrite A.
  destruct absolute; cbn beta iota; cbn [negb].
  - split.
    + destruct (file_data content) as [data|e]; cbn beta iota; eauto.
      destruct (assoc p (write_errors w)) as [[m|n m]|]; cbn beta iota; eauto.
      destruct (assoc p (disk w)) as [[c|l|c]|]; cbn beta iota; eauto.
    + split; [discriminate|]. intros _. split.
      * intros text failure -> W. cbn [file_data]. cbn beta iota. rewrite W.
        destruct failure; reflexivity.
      * intros e F. now rewrite F.
  - split; [eauto|]. split; [reflexivity | discriminate].
Qed.

Lemma writeFileJs_failures_are_text_witness :
  fst (writeFileJs (VString "/tmp/locked.txt") (VString "x") locked_world)
  = Normal (VString "Error writing to file: EACCES: permission denied, open '/tmp/locked.txt'")
  /\ writeFileJs (VString "out.txt") (VString "x") locked_world
     = (Normal (VString "Error: Path must be absolute. Received: out.txt"), locked_world)
  /\ writeFileJs (VString "/tmp/out.txt") VUndefined locked_world
     = (Normal (VString ("Error writing to file: "
                         ++ err_message (ERR_INVALID_DATA VUndefined))),
        locked_world).
Proof.
  split; [|split].
  - apply (proj1 (proj2 (proj2 (writeFileJs_failures_are_text
                                  "/tmp/locked.txt" (VString "x") locked_world))
                    eq_refl)
             "x" (OpenFails "EACCES: permission denied, open '/tmp/locked.txt'"));
      reflexivity.
  - apply (proj1 (proj2 (writeFileJs_failures_are_text
                           "out.txt" (VString "x") locked_world))).
    reflexivity.
  - apply (proj2 (proj2 (proj2 (writeFileJs_failures_are_text
                                  "/tmp/out.txt" VUndefined locked_world))
                    eq_refl)
             (ERR_INVALID_DATA VUndefined)).
    reflexivity.
Defined.

(** ** tools.js: the glob tools *)

(** X5. [globJs] never throws and never changes the world, whatever its
    arguments are: its whole body is inside [try].  With [searchPath]
    omitted it searches [process.cwd()].  If [globSync] throws, the answer
    is "Error performing glob search: " with the message; if it finds
    files, the answer is their paths, one per line, in the order found; if
    it finds none, the answer names the pattern and the directory. *)
Theorem globJs_always_answers :
  forall (env : Env) (pattern searchPath : JsValue) (w : World),
    let dir := default_to (VString (cwd env)) searchPath in
    (exists text, globJs env pattern searchPath w = (Normal (VString text), w))
    /\ (forall e,
           globSync env pattern dir ignored_directories (disk w) = Throw e ->
           globJs env pattern searchPath w
           = (Normal (VString ("Error performing glob search: " ++ err_message e)), w))
    /\ (forall file files,
           globSync env pattern dir ignored_directories (disk w)
           = Normal (file :: files) ->
           globJs env pattern searchPath w
           = (Normal (VString (join nl (file :: files))), w))
    /\ (forall p d,
           globSync env pattern dir ignored_directories (disk w) = Normal [] ->
           ToString pattern = Normal p ->
           ToString dir = Normal d ->
           globJs env pattern searchPath w
           = (Normal (VString ("No files found matching pattern '" ++ p
                               ++ "' in '" ++ d ++ "'.")), w)).
Proof.
  intros env pattern searchPath w dir.
  unfold globJs, call_globSync. fold dir. run_js.
  destruct (globSync env pattern dir ignored_directories (disk w))
    as [[|file files]|e] eqn:G; cbn beta iota.
  - split; [|split; [discriminate|split; [discriminate|]]].
    + destruct (ToString pattern); cbn beta iota; eauto.
      destruct (ToString dir); cbn beta iota; eauto.
    + intros p d _ P D. rewrite P. cbn beta iota. now rewrite D.
  - split; [eauto|]. split; [discriminate|]. split; [|discriminate].
    intros file' files' H. now injection H as <- <-.
  - split; [eauto|]. split; [|split; discriminate].
    intros e' H. now injection H as <-.
Qed.

Lemma globJs_always_answers_witness :
  globJs glob_env (VString "*.js") VUndefined empty_world
  = (Normal (VString ("/home/user/agent/a.js" ++ nl ++ "/home/user/agent/b.js")),
     empty_world)
  /\ globJs glob_env (VString "*.md") VUndefined empty_world
     = (Normal (VString "No files found matching pattern '*.md' in '/home/user/agent'."),
        empty_world)
  /\ globJs glob_env (VObject [("pattern", VString "*.js")]) VUndefined empty_world
     = (Normal (VString "Error performing glob search: invalid pattern"), empty_world).
Proof.
  split; [|split].
  - apply (proj1 (proj2 (proj2 (globJs_always_answers
                                  glob_env (VString "*.js") VUndefined empty_world)))
             "/home/user/agent/a.js" ["/home/user/agent/b.js"]).
    reflexivity.
  - apply (proj2 (proj2 (proj2 (globJs_always_answers
                                  glob_env (VString "*.md") VUndefined empty_world)))
             "*.md" "/home/user/agent"); reflexivity.
  - apply (proj1 (proj2 (globJs_always_answers
                           glob_env (VObject [("pattern", VString "*.js")])
                           VUndefined empty_world))
             (TypeError "invalid pattern")).
    reflexivity.
Defined.

Lemma collect_files_throws (env : Env) (pattern : JsValue) (rest finalExcludes : list JsValue)
      (allFilePaths : list string) (w : World) :
  collect_files env (pattern :: rest) finalExcludes allFilePaths w
  = (Throw (ReferenceError "glob is not defined"), w).
Proof.
  reflexivity.
Qed.

(** X6. [readManyFilesJs] never reads a file.  For all five arguments and
    every world it returns a text and leaves the world alone, and the text
    is either "No files found matching the provided patterns." (when
    [paths] and [include] give no pattern at all) or an error report
    starting with "Error in readManyFiles: ".  As soon as there is one
    pattern to glob, the report is "glob is not defined": the loop over
    the patterns evaluates the identifier [glob], which tools.js does not
    bind. *)
Theorem readManyFilesJs_never_reads_a_file :
  forall (env : Env) (paths exclude include recursive useDefaultExcludes : JsValue)
         (w : World),
    (exists text,
        readManyFilesJs env paths exclude include recursive useDefaultExcludes w
        = (Normal (VString text), w)
        /\ (text = "No files found matching the provided patterns."
            \/ String.prefix "Error in readManyFiles: " text = true))
    /\ (forall excluded from_paths from_include,
           spread "exclude" (default_to (VArray []) exclude) = Normal excluded ->
           spread "paths" paths = Normal from_paths ->
           spread "include" (default_to (VArray []) include) = Normal from_include ->
           (from_paths ++ from_include)%list <> [] ->
           readManyFilesJs env paths exclude include recursive useDefaultExcludes w
           = (Normal (VString "Error in readManyFiles: glob is not defined"), w)).
Proof.
  intros env paths exclude include recursive useDefaultExcludes w.
  assert (P : forall m, String.prefix "Error in readManyFiles: "
                          ("Error in readManyFiles: " ++ m) = true)
    by (intros m; apply prefix_iff; now exists m).
  unfold readManyFilesJs. run_js.
  destruct (spread "exclude" (default_to (VArray []) exclude)) as [excluded|e];
    cbn beta iota.
  2: { split; [eexists; split; [reflexivity | right; apply P] | discriminate]. }
  destruct (spread "paths" paths) as [from_paths|e]; cbn beta iota.
  2: { split; [eexists; split; [reflexivity | right; apply P] | discriminate]. }
  destruct (spread "include" (default_to (VArray []) include)) as [from_include|e];
    cbn beta iota.
  2: { split; [eexists; split; [reflexivity | right; apply P] | discriminate]. }
  destruct (from_paths ++ from_include)%list as [|pattern rest] eqn:L.
  - split.
    + eexists. split; [reflexivity | now left].
    + intros ? ? ? H1 H2 H3 N. injection H2 as <-. injection H3 as <-.
      now elim N.
  - rewrite collect_files_throws. cbn beta iota. split.
    + eexists. split; [reflexivity | right; apply (P "glob is not defined")].
    + reflexivity.
Qed.

Lemma readManyFilesJs_never_reads_a_file_witness :
  readManyFilesJs (sample_env (scripted_model [] ""))
    (VArray [VString "/tmp/notes.txt"]) VUndefined VUndefined VUndefined VUndefined
    notes_world
  = (Normal (VString "Error in readManyFiles: glob is not defined"), notes_world).
Proof.
  apply (proj2 (readManyFilesJs_never_reads_a_file
                  (sample_env (scripted_model [] ""))
                  (VArray [VString "/tmp/notes.txt"])
                  VUndefined VUndefined VUndefined VUndefined notes_world)
           [] [VString "/tmp/notes.txt"] []); try reflexivity.
  discriminate.
Defined.

(** ** tools.js: the memory store *)

Lemma set_entry_fresh (A : Type) (k : string) (v : A) (l : list (string * A)) :
  assoc k l = None -> set_entry k v l = (l ++ [(k, v)])%list.
Proof.
  induction l as [|[k' v'] l IH]; simpl; [reflexivity|].
  destruct (String.eqb k k'); [discriminate|].
  intros H. now rewrite IH.
Qed.

Lemma set_entry_keys_present (A : Type) (k : string) (v v0 : A) (l : list (string * A)) :
  assoc k l = Some v0 ->
  map fst (set_entry k v l) = map fst l /\ length (set_entry k v l) = length l.
Proof.
  induction l as [|[k' v'] l IH]; simpl; [discriminate|].
  destruct (String.eqb k k') eqn:E.
  - apply String.eqb_eq in E. subst k'. intros _. split; reflexivity.
  - intros H. simpl. destruct (IH H) as [-> ->]. split; reflexivity.
Qed.

Lemma assoc_None_not_In (A : Type) (k : string) (l : list (string * A)) :
  assoc k l = None <-> ~ In k (map fst l).
Proof.
  induction l as [|[k' v'] l IH]; simpl.
  - split; [intros _ [] | reflexivity].
  - destruct (String.eqb k k') eqn:E.
    + apply String.eqb_eq in E. subst k'. split; [discriminate|].
      intros N. elim N. now left.
    + apply String.eqb_neq in E. rewrite IH. split.
      * intros N [H|H]; [now elim E | now elim N].
      * intros N H. apply N. now right.
Qed.

Lemma set_entry_NoDup (A : Type) (k : string) (v : A) (l : list (string * A)) :
  NoDup (map fst l) -> NoDup (map fst (set_entry k v l)).
Proof.
  intros N. destruct (assoc k l) as [v0|] eqn:E.
  - now rewrite (proj1 (set_entry_keys_present A k v v0 l E)).
  - rewrite (set_entry_fresh A k v l E), map_app. simpl.
    apply NoDup_app; [exact N | repeat constructor; intros [] |].
    intros x I [<-|[]]. now apply assoc_None_not_In in E.
Qed.

(** What [saveMemoryJs] leaves behind. *)
Lemma saveMemoryJs_effect (env : Env) (fact : JsValue) (w : World) :
  let w' := snd (saveMemoryJs env fact w) in
  memoryStore w' = set_entry (next_key env w) fact (memoryStore w)
  /\ dates_taken w' = S (dates_taken w)
  /\ (assoc (MEMORY_FILE_PATH env) (write_errors w) = None ->
      (assoc (MEMORY_FILE_PATH env) (disk w) = None
       \/ exists old, assoc (MEMORY_FILE_PATH env) (disk w) = Some (File (Normal old))) ->
      assoc (MEMORY_FILE_PATH env) (disk w')
      = Some (File (Normal (JSON_stringify env
                              (set_entry (next_key env w) fact (memoryStore w)))))).
Proof.
  unfold saveMemoryJs, new_Date_toISOString, saveMemoryToFile. run_js.
  cbn beta iota zeta. cbn [memoryStore write_errors dates_taken disk].
  fold (next_key env w).
  destruct (assoc (MEMORY_FILE_PATH env) (write_errors w)) as [[m|n m]|] eqn:E;
    cbn beta iota zeta;
    cbn [snd memoryStore write_errors dates_taken disk write_console set_disk];
    try (repeat split; try reflexivity; discriminate).
  destruct (assoc (MEMORY_FILE_PATH env) (disk w)) as [[[old|e]|l|c]|] eqn:D;
    cbn beta iota zeta;
    cbn [snd memoryStore write_errors dates_taken disk write_console set_disk];
    (split; [reflexivity|]; split; [reflexivity|]);
    intros _ [F|[old' F]]; try discriminate;
    unfold store_file, create_entry; rewrite D; apply assoc_set_entry_same.
Qed.

(** X7. Saving never disturbs the facts already stored.  After
    [saveMemoryJs], every key other than the new one maps to what it
    mapped to before; the keys of the store stay distinct if they were;
    and when the new key is not in use, the store is the old store with
    the new record added at the end, one record longer. *)
Theorem saveMemoryJs_keeps_earlier_facts :
  forall (env : Env) (fact : JsValue) (w : World),
    let w' := snd (saveMemoryJs env fact w) in
    (forall k, k <> next_key env w ->
               assoc k (memoryStore w') = assoc k (memoryStore w))
    /\ (NoDup (map fst (memoryStore w)) -> NoDup (map fst (memoryStore w')))
    /\ (assoc (next_key env w) (memoryStore w) = None ->
        memoryStore w' = (memoryStore w ++ [(next_key env w, fact)])%list
        /\ length (memoryStore w') = S (length (memoryStore w))).
Proof.
  intros env fact w w'.
  destruct (saveMemoryJs_effect env fact w) as [S _]. fold w' in S. rewrite S.
  split; [|split].
  - intros k N. now apply assoc_set_entry_other.
  - apply set_entry_NoDup.
  - intros F. rewrite (set_entry_fresh _ _ _ _ F). split; [reflexivity|].
    rewrite length_app. simpl. lia.
Qed.

Lemma saveMemoryJs_keeps_earlier_facts_witness :
  memoryStore (snd (saveMemoryJs (sample_env (scripted_model [] ""))
                                 (VString "user has a cat") remembering_world))
  = [ ("fact_a", VString "user likes blue");
      ("fact_b", VString "user is called Kim");
      ("fact_2025-06-01T09:30:00.000Z", VString "user has a cat") ].
Proof.
  apply (proj1 (proj2 (proj2 (saveMemoryJs_keeps_earlier_facts
                                (sample_env (scripted_model [] ""))
                                (VString "user has a cat") remembering_world))
                  eq_refl)).
Defined.

(** X8. Two saves within one tick of the clock collide.  When the second
    [new Date().toISOString()] gives the same text as the first, the
    second [saveMemoryJs] reuses the key of the first: the store keeps its
    size, the key now maps to the second fact, and the first fact is no
    longer reachable under it. *)
Theorem saveMemoryJs_same_tick_overwrites :
  forall (env : Env) (first second : JsValue) (w : World),
    toISOString env (S (dates_taken w)) = toISOString env (dates_taken w) ->
    let w1 := snd (saveMemoryJs env first w) in
    let w2 := snd (saveMemoryJs env second w1) in
    next_key env w1 = next_key env w
    /\ assoc (next_key env w) (memoryStore w1) = Some first
    /\ assoc (next_key env w) (memoryStore w2) = Some second
    /\ length (memoryStore w2) = length (memoryStore w1).
Proof.
  intros env first second w T w1 w2.
  destruct (saveMemoryJs_effect env first w) as [S1 [D1 _]].
  destruct (saveMemoryJs_effect env second w1) as [S2 _].
  fold w1 in S1, D1. fold w2 in S2.
  assert (K : next_key env w1 = next_key env w)
    by (unfold next_key; now rewrite D1, T).
  rewrite K in S2.
  assert (A1 : assoc (next_key env w) (memoryStore w1) = Some first)
    by (rewrite S1; apply assoc_set_entry_same).
  repeat split; [exact K | exact A1 | |].
  - rewrite S2. apply assoc_set_entry_same.
  - rewrite S2. exact (proj2 (set_entry_keys_present _ _ second _ _ A1)).
Qed.

Lemma saveMemoryJs_same_tick_overwrites_witness :
  memoryStore
    (snd (saveMemoryJs frozen_clock_env (VString "user is called Kim")
            (snd (saveMemoryJs frozen_clock_env (VString "user likes blue")
                               empty_world))))
  = [("fact_2025-06-01T09:30:00.000Z", VString "user is called Kim")]
  /\ length (memoryStore
               (snd (saveMemoryJs frozen_clock_env (VString "user is called Kim")
                       (snd (saveMemoryJs frozen_clock_env (VString "user likes blue")
                                          empty_world)))))
     = length (memoryStore (snd (saveMemoryJs frozen_clock_env
                                   (VString "user likes blue") empty_world))).
Proof.
  split; [reflexivity|].
  exact (proj2 (proj2 (proj2 (saveMemoryJs_same_tick_overwrites
                                frozen_clock_env (VString "user likes blue")
                                (VString "user is called Kim") empty_world eq_refl)))).
Defined.

Lemma list_entries_text_store (facts : list (string * string)) :
  forall result,
    list_entries (text_store facts) result = Normal (result ++ fact_lines facts).
Proof.
  induction facts as [|[k v] facts IH]; intros result; simpl.
  - now rewrite string_app_nil_r.
  - rewrite IH. f_equal. unfold fact_line; simpl.
    repeat (rewrite string_app_assoc; simpl). reflexivity.
Qed.

(** X9. [listAllMemoryJs] on a store of texts.  It never changes the
    world.  With nothing stored it answers "No facts currently stored in
    memory."; otherwise it answers "Stored facts:", a newline, and then
    one line "- key: fact" per record, each ended by a newline, in the
    order in which the records were inserted. *)
Theorem listAllMemoryJs_lists_in_insertion_order :
  forall (facts : list (string * string)) (w : World),
    memoryStore w = text_store facts ->
    listAllMemoryJs w
    = (Normal (VString
                 match facts with
                 | [] => "No facts currently stored in memory."
                 | _ => "Stored facts:" ++ nl ++ fact_lines facts
                 end), w).
Proof.
  intros facts w S.
  unfold listAllMemoryJs. run_js. rewrite S.
  destruct facts as [|record facts]; [reflexivity|].
  change (text_store (record :: facts))
    with ((fst record, VString (snd record)) :: text_store facts).
  cbn beta iota.
  change ((fst record, VString (snd record)) :: text_store facts)
    with (text_store (record :: facts)).
  now rewrite list_entries_text_store.
Qed.

Lemma listAllMemoryJs_lists_in_insertion_order_witness :
  listAllMemoryJs remembering_world
  = (Normal (VString ("Stored facts:" ++ nl
                      ++ "- fact_a: user likes blue" ++ nl
                      ++ "- fact_b: user is called Kim" ++ nl)),
     remembering_world).
Proof.
  exact (listAllMemoryJs_lists_in_insertion_order
           [("fact_a", "user likes blue"); ("fact_b", "user is called Kim")]
           remembering_world eq_refl).
Defined.

(** X10. [retrieveMemoryJs] only reads: whatever the key, the world after
    the call is the world before it, so asking twice gives the same
    answer.  A string key that is not in the store gets "No fact found for
    key: " and the key; a key that maps to a text gets "Retrieved fact for
    key '...': " and that text. *)
Theorem retrieveMemoryJs_only_reads :
  forall (key : JsValue) (w : World),
    snd (retrieveMemoryJs key w) = w
    /\ retrieveMemoryJs key (snd (retrieveMemoryJs key w)) = retrieveMemoryJs key w
    /\ (forall k,
           key = VString k -> assoc k (memoryStore w) = None ->
           retrieveMemoryJs key w
           = (Normal (VString ("No fact found for key: " ++ k)), w))
    /\ (forall k fact,
           key = VString k -> assoc k (memoryStore w) = Some (VString fact) ->
           retrieveMemoryJs key w
           = (Normal (VString ("Retrieved fact for key '" ++ k ++ "': " ++ fact)), w)).
Proof.
  intros key w.
  assert (R : snd (retrieveMemoryJs key w) = w).
  { unfold retrieveMemoryJs. run_js.
    destruct (Map_get key (memoryStore w)) as [fact|]; cbn beta iota.
    - destruct (ToString key); cbn beta iota; [|reflexivity].
      destruct (ToString fact); reflexivity.
    - destruct (ToString key); reflexivity. }
  split; [exact R|]. split; [now rewrite R|]. split.
  - intros k -> N. unfold retrieveMemoryJs. run_js. cbn [Map_get].
    now rewrite N.
  - intros k fact -> S. unfold retrieveMemoryJs. run_js. cbn [Map_get].
    now rewrite S.
Qed.

Lemma retrieveMemoryJs_only_reads_witness :
  retrieveMemoryJs (VString "fact_c") remembering_world
  = (Normal (VString "No fact found for key: fact_c"), remembering_world)
  /\ retrieveMemoryJs (VString "fact_b") remembering_world
     = (Normal (VString "Retrieved fact for key 'fact_b': user is called Kim"),
        remembering_world).
Proof.
  split.
  - apply (proj1 (proj2 (proj2 (retrieveMemoryJs_only_reads
                                  (VString "fact_c") remembering_world)))
             "fact_c"); reflexivity.
  - apply (proj2 (proj2 (proj2 (retrieveMemoryJs_only_reads
                                  (VString "fact_b") remembering_world)))
             "fact_b" "user is called Kim"); reflexivity.
Defined.

Lemma fold_set_entry_fresh (entries : list (string * JsValue)) :
  forall store,
    NoDup (map fst (store ++ entries)%list) ->
    fold_left (fun m kv => set_entry (fst kv) (snd kv) m) entries store
    = (store ++ entries)%list.
Proof.
  induction entries as [|[k v] entries IH]; intros store N; simpl.
  - now rewrite app_nil_r.
  - assert (F : assoc k store = None).
    { apply assoc_None_not_In. intros I.
      rewrite map_app in N. simpl in N.
      apply NoDup_remove_2 in N. apply N, in_or_app. now left. }
    rewrite (set_entry_fresh _ _ _ _ F), IH; rewrite <- app_assoc; [reflexivity|].
    exact N.
Qed.

Lemma Map_of_entries_distinct (entries : list (string * JsValue)) :
  NoDup (map fst entries) -> Map_of_entries entries = entries.
Proof.
  intros N. unfold Map_of_entries. now rewrite fold_set_entry_fresh.
Qed.

Lemma loadMemoryFromFile_parsed (env : Env) (w : World) (data : string)
      (parsed : JsValue) :
  assoc (MEMORY_FILE_PATH env) (disk w) = Some (File (Normal data)) ->
  JSON_parse env data = Normal parsed ->
  loadMemoryFromFile env w
  = match Object_entries parsed with
    | Normal entries => (Normal (Map_of_entries entries), w)
    | Throw e =>
        (Normal [],
         write_console Stderr ("Error loading memory from file: " ++ err_message e) w)
    end.
Proof.
  intros F P. unfold loadMemoryFromFile. run_js.
  repeat (rewrite F; cbn beta iota). rewrite P. cbn beta iota.
  destruct (Object_entries parsed); reflexivity.
Qed.

(** X11. Loading a well-formed memory file.  When the backing file holds
    a text that [JSON.parse] reads as an object with distinct keys, the
    loaded store has exactly the properties of that object, in their
    order, nothing is written to the console and the world is untouched.
    When the text is valid JSON but reads as [null], [Object.entries]
    throws inside the [try]: the store is empty and the error is logged. *)
Theorem loadMemoryFromFile_reads_the_object :
  forall (env : Env) (w : World) (data : string),
    assoc (MEMORY_FILE_PATH env) (disk w) = Some (File (Normal data)) ->
    (forall props,
        JSON_parse env data = Normal (VObject props) ->
        NoDup (map fst props) ->
        loadMemoryFromFile env w = (Normal props, w))
    /\ (JSON_parse env data = Normal VNull ->
        loadMemoryFromFile env w
        = (Normal [],
           write_console Stderr
             "Error loading memory from file: Cannot convert undefined or null to object"
             w)).
Proof.
  intros env w data F. split.
  - intros props P N. rewrite (loadMemoryFromFile_parsed env w data _ F P).
    cbn [Object_entries]. now rewrite Map_of_entries_distinct.
  - intros P. now rewrite (loadMemoryFromFile_parsed env w data _ F P).
Qed.

Lemma loadMemoryFromFile_reads_the_object_witness :
  loadMemoryFromFile reload_env saved_world = (Normal blue_store, saved_world).
Proof.
  apply (proj1 (loadMemoryFromFile_reads_the_object
                  reload_env saved_world (sample_stringify blue_store) eq_refl)).
  - reflexivity.
  - repeat constructor. intros [].
Defined.

(** X12. A saved fact can be loaded again.  Take a store with distinct
    keys and a backing file, absent or a readable regular file, that can
    be written, and save a fact.  Provided [JSON.parse] reads back what
    [JSON.stringify] wrote for the store, [loadMemoryFromFile] on any
    world with the disk the save left returns the store as it was after
    the save, logs nothing, and in that store the new key maps to the
    fact. *)
Theorem saved_fact_is_loaded_again :
  forall (env : Env) (fact : JsValue) (w later : World),
    NoDup (map fst (memoryStore w)) ->
    assoc (MEMORY_FILE_PATH env) (write_errors w) = None ->
    (assoc (MEMORY_FILE_PATH env) (disk w) = None
     \/ exists old, assoc (MEMORY_FILE_PATH env) (disk w) = Some (File (Normal old))) ->
    let w' := snd (saveMemoryJs env fact w) in
    JSON_parse env (JSON_stringify env (memoryStore w'))
    = Normal (VObject (memoryStore w')) ->
    disk later = disk w' ->
    loadMemoryFromFile env later = (Normal (memoryStore w'), later)
    /\ assoc (next_key env w) (memoryStore w') = Some fact.
Proof.
  intros env fact w later N W D w' P L.
  destruct (saveMemoryJs_effect env fact w) as [S [_ K]].
  fold w' in S, K. specialize (K W D).
  assert (F : assoc (MEMORY_FILE_PATH env) (disk later)
              = Some (File (Normal (JSON_stringify env (memoryStore w'))))).
  { now rewrite L, K, S. }
  split.
  - rewrite (loadMemoryFromFile_parsed env later _ _ F P).
    cbn [Object_entries]. rewrite Map_of_entries_distinct; [reflexivity|].
    rewrite S. now apply set_entry_NoDup.
  - rewrite S. apply assoc_set_entry_same.
Qed.

Lemma saved_fact_is_loaded_again_witness :
  loadMemoryFromFile reload_env
    (mkWorld (disk (snd (saveMemoryJs reload_env (VString "user likes blue")
                                      empty_world)))
             [] [] [] 0)
  = (Normal blue_store,
     mkWorld (disk (snd (saveMemoryJs reload_env (VString "user likes blue")
                                      empty_world)))
             [] [] [] 0)
  /\ assoc "fact_2025-06-01T09:30:00.000Z" blue_store
     = Some (VString "user likes blue").
Proof.
  apply (saved_fact_is_loaded_again reload_env (VString "user likes blue")
           empty_world
           (mkWorld (disk (snd (saveMemoryJs reload_env (VString "user likes blue")
                                             empty_world)))
                    [] [] [] 0)).
  - constructor.
  - reflexivity.
  - now left.
  - reflexivity.
  - reflexivity.
Defined.

(** ** main.js: rounds of the dispatch loop *)

Lemma tool_messages_fields (toolCalls : list ToolCall) :
  forall outputs,
    length outputs = length toolCalls ->
    let appended := map (fun p => tool_message (fst p) (snd p))
                        (combine toolCalls outputs) in
    map role appended = map (fun _ => "tool") toolCalls
    /\ map tool_call_id appended = map (fun toolCall => Some (id toolCall)) toolCalls
    /\ map name appended = map (fun toolCall => Some (function_name toolCall)) toolCalls
    /\ map content appended = outputs.
Proof.
  induction toolCalls as [|toolCall rest IH]; intros [|o outputs] L;
    try discriminate; simpl.
  - repeat split.
  - injection L as L. destruct (IH outputs L) as [-> [-> [-> ->]]].
    repeat split.
Qed.

(** X13. A round that completes answers every request.  When the model's
    message carries requests and every one of the calls returns, the loop
    has appended, after the assistant message, exactly one message per
    request, in the order of the requests: each has role "tool", the
    [tool_call_id] of its request and the name of its request.  The model
    is then called again on exactly that transcript, in the world the
    tools left. *)
Theorem completed_round_answers_every_request :
  forall (env : Env) (fuel : nat) (currentMessages : list Message) (w : World)
         (assistantMessage : Message) (toolCall : ToolCall) (rest : list ToolCall)
         (workingMessages' : list Message) (w' : World),
    ollama_chat env currentMessages = Normal assistantMessage ->
    tool_calls assistantMessage = Some (toolCall :: rest) ->
    run_toolCalls env (toolCall :: rest)
      (currentMessages ++ [assistantMessage])%list w
    = (Normal workingMessages', w') ->
    (exists appended,
        workingMessages'
        = ((currentMessages ++ [assistantMessage]) ++ appended)%list
        /\ map role appended = map (fun _ => "tool") (toolCall :: rest)
        /\ map tool_call_id appended
           = map (fun request => Some (id request)) (toolCall :: rest)
        /\ map name appended
           = map (fun request => Some (function_name request)) (toolCall :: rest))
    /\ processChatWithTools env (S fuel) currentMessages w
       = processChatWithTools env fuel workingMessages' w'.
Proof.
  intros env fuel current w a toolCall rest wm' w' C T R. split.
  - destruct (run_toolCalls_appends env (toolCall :: rest) _ _ _ _ R)
      as [outputs [L ->]].
    eexists. split; [reflexivity|].
    destruct (tool_messages_fields (toolCall :: rest) outputs L) as [F1 [F2 [F3 _]]].
    repeat split; assumption.
  - cbn [processChatWithTools]. rewrite C, T. now rewrite R.
Qed.

Lemma completed_round_answers_every_request_witness :
  processChatWithTools memory_env 2
    [system_message memory_env; user_message memory_question] empty_world
  = processChatWithTools memory_env 1
      [ system_message memory_env; user_message memory_question;
        assistant_requests [list_all];
        tool_message list_all (VString "No facts currently stored in memory.") ]
      empty_world.
Proof.
  apply (proj2 (completed_round_answers_every_request
                  memory_env 1
                  [system_message memory_env; user_message memory_question]
                  empty_world (assistant_requests [list_all]) list_all []
                  [ system_message memory_env; user_message memory_question;
                    assistant_requests [list_all];
                    tool_message list_all
                      (VString "No facts currently stored in memory.") ]
                  empty_world eq_refl eq_refl eq_refl)).
Defined.

Lemma get_property_unregistered (env : Env) (functionName : string) :
  ~ In functionName (registered_names env) ->
  ~ In functionName inherited_names ->
  get_property env functionName = PUndefined.
Proof.
  intros R I. unfold get_property.
  apply assoc_None_not_In in R. apply assoc_None_not_In in I.
  now rewrite R, I.
Qed.

(** X14. Requests for names the code does not know.  When every request
    of a round names something that is neither one of the eight names of
    [availableFunctions] nor a property name of [Object.prototype], no
    handler runs and the world is untouched: each request gets the tool
    message "Error: Tool '<name>' not found." with its own id, in order,
    and the model is called again on the transcript so extended. *)
Theorem unregistered_names_are_reported :
  forall (env : Env) (fuel : nat) (currentMessages : list Message) (w : World)
         (assistantMessage : Message) (toolCall : ToolCall) (rest : list ToolCall),
    ollama_chat env currentMessages = Normal assistantMessage ->
    tool_calls assistantMessage = Some (toolCall :: rest) ->
    Forall (fun request =>
              ~ In (function_name request) (registered_names env)
              /\ ~ In (function_name request) inherited_names)
           (toolCall :: rest) ->
    processChatWithTools env (S fuel) currentMessages w
    = processChatWithTools env fuel
        ((currentMessages ++ [assistantMessage])
           ++ map not_found_message (toolCall :: rest))%list w.
Proof.
  intros env fuel current w a toolCall rest C T U.
  apply round_of_unknown_tools_goes_on; [exact C | exact T |].
  eapply Forall_impl; [|exact U].
  intros request [R I]. now apply get_property_unregistered.
Qed.

Lemma unregistered_names_are_reported_witness :
  processChatWithTools write_env 2 [user_message "write x to /tmp/out.txt"] empty_world
  = processChatWithTools write_env 1
      [ user_message "write x to /tmp/out.txt";
        assistant_requests [write_request];
        tool_message write_request (VString "Error: Tool 'write_file' not found.") ]
      empty_world.
Proof.
  apply (unregistered_names_are_reported
           write_env 1 [user_message "write x to /tmp/out.txt"] empty_world
           (assistant_requests [write_request]) write_request [] eq_refl eq_refl).
  constructor; [|constructor].
  split; simpl; intuition discriminate.
Defined.

(** X15. What the caller reads as the final answer.  Whenever
    [processChatWithTools] returns, the last message of the transcript it
    returns is the message the model gave to everything before it, and
    that message asks for no tool (the property is missing or the list is
    empty). *)
Theorem returned_transcript_ends_with_the_answer :
  forall (env : Env) (fuel : nat) (currentMessages : list Message) (w : World)
         (updatedMessages : list Message) (w' : World),
    processChatWithTools env fuel currentMessages w = Returned updatedMessages w' ->
    exists before answer,
      updatedMessages = (before ++ [answer])%list
      /\ ollama_chat env before = Normal answer
      /\ (tool_calls answer = None \/ tool_calls answer = Some []).
Proof.
  intros env fuel. induction fuel as [|fuel IH]; intros current w updated w' H;
    simpl in H; [discriminate|].
  destruct (ollama_chat env current) as [a|e] eqn:C; [|discriminate].
  destruct (tool_calls a) as [[|toolCall rest]|] eqn:T.
  - injection H as <- _. exists current, a. auto.
  - destruct (run_toolCalls env (toolCall :: rest) (current ++ [a])%list w)
      as [[wm|e] w1]; [|discriminate].
    exact (IH _ _ _ _ H).
  - injection H as <- _. exists current, a. auto.
Qed.

Lemma returned_transcript_ends_with_the_answer_witness :
  exists before answer,
    [ system_message memory_env; user_message memory_question;
      assistant_requests [list_all];
      tool_message list_all (VString "No facts currently stored in memory.");
      assistant_says "Nothing yet." ]
    = (before ++ [answer])%list
    /\ ollama_chat memory_env before = Normal answer
    /\ (tool_calls answer = None \/ tool_calls answer = Some []).
Proof.
  apply (returned_transcript_ends_with_the_answer
           memory_env 2 [system_message memory_env; user_message memory_question]
           empty_world _ empty_world).
  reflexivity.
Defined.

(** X16. The search tools as the loop calls them, that is with the
    arguments object as their only argument: whatever the arguments and
    the disk, a [search_file_content] request is answered with "Error
    searching file content: glob is not defined" and a [read_many_files]
    request with a text that starts with "Error in readManyFiles: " (the
    object is spread as if it were the list of paths); neither touches the
    world, and neither ends the round. *)
Theorem search_requests_are_answered_with_errors :
  forall (env : Env) (i : JsValue) (args : list (string * JsValue)) (w : World),
    call_tool env (mkToolCall i "search_file_content" args) w
    = (Normal (VString "Error searching file content: glob is not defined"), w)
    /\ exists report,
        call_tool env (mkToolCall i "read_many_files" args) w
        = (Normal (VString ("Error in readManyFiles: " ++ report)), w).
Proof.
  intros env i args w. split.
  - unfold call_tool; simpl.
    unfold searchFileContentJs, try_catch, bind. reflexivity.
  - eexists. reflexivity.
Qed.

(** X17. A fact saved through the loop is stored as an object.  After a
    [save_memory] request the new key maps to the arguments object
    [{fact: ...}] itself, not to the text of the fact; so when the store
    was empty and the object has no property named toString,
    [listAllMemoryJs] then shows the record as "[object Object]". *)
Theorem save_memory_request_stores_the_object :
  forall (env : Env) (i : JsValue) (args : list (string * JsValue)) (w : World),
    let w' := snd (call_tool env (mkToolCall i "save_memory" args) w) in
    assoc (next_key env w) (memoryStore w') = Some (VObject args)
    /\ (memoryStore w = [] ->
        assoc "toString" args = None ->
        listAllMemoryJs w'
        = (Normal (VString ("Stored facts:" ++ nl ++ "- " ++ next_key env w
                            ++ ": [object Object]" ++ nl)), w')).
Proof.
  intros env i args w w'.
  assert (E : w' = snd (saveMemoryJs env (VObject args) w)) by reflexivity.
  destruct (saveMemoryJs_effect env (VObject args) w) as [S _].
  rewrite <- E in S. split.
  - rewrite S. apply assoc_set_entry_same.
  - intros M T. unfold listAllMemoryJs. run_js. rewrite S, M.
    cbn [set_entry list_entries ToString]. rewrite T. cbn beta iota.
    now rewrite !string_app_assoc.
Qed.

Lemma save_memory_request_stores_the_object_witness :
  listAllMemoryJs (snd (call_tool (sample_env (scripted_model [] "")) save_blue
                                  empty_world))
  = (Normal (VString ("Stored facts:" ++ nl
                      ++ "- fact_2025-06-01T09:30:00.000Z: [object Object]" ++ nl)),
     snd (call_tool (sample_env (scripted_model [] "")) save_blue empty_world)).
Proof.
  apply (proj2 (save_memory_request_stores_the_object
                  (sample_env (scripted_model [] "")) (VString "call_0")
                  [("fact", VString "user likes blue")] empty_world));
    reflexivity.
Defined.

(** ** main.js: the session *)

Lemma run_session_extends (env : Env) (fuel : nat) (lines : list string) :
  forall (transcript : list Message) (w : World),
    exists appended,
      session_messages (run_session env fuel lines transcript w)
      = (transcript ++ appended)%list.
Proof.
  induction lines as [|userQuery rest IH]; intros transcript w; simpl.
  - exists []. now rewrite app_nil_r.
  - unfold askQuestion.
    destruct (String.eqb (toLowerCase userQuery) "exit").
    + exists []. simpl. now rewrite app_nil_r.
    + destruct (processChatWithTools env fuel
                  (transcript ++ [user_message userQuery])%list w)
        as [updated w'|e w'|wm w'] eqn:P.
      * apply processChatWithTools_extends in P. destruct P as [a1 [_ ->]].
        destruct (IH ((transcript ++ [user_message userQuery]) ++ a1)%list w')
          as [a2 ->].
        exists ((user_message userQuery :: a1) ++ a2)%list.
        now rewrite <- !app_assoc.
      * destruct (IH (transcript ++ [user_message userQuery])%list w') as [a2 ->].
        exists (user_message userQuery :: a2). now rewrite <- app_assoc.
      * exists [user_message userQuery]. reflexivity.
Qed.

(** X18. What a line of input does to the transcript.  A line that lowers
    to "exit" closes the session with the transcript as it is and the
    model is not called.  Any other line is appended as a user message
    before the model is called, and it stays there whatever happens next:
    if the loop returns, the session continues with the returned
    transcript; if the loop rejects (the model or a tool threw), the
    session continues with the old transcript plus the user's line only,
    in the world the tools left.  Over a whole session the transcript
    only grows. *)
Theorem session_records_every_line :
  forall (env : Env) (fuel : nat) (userQuery : string)
         (transcript : list Message) (w : World),
    (toLowerCase userQuery = "exit" ->
     askQuestion env fuel userQuery transcript w = Closed transcript)
    /\ (toLowerCase userQuery <> "exit" ->
        (exists appended,
            session_messages (askQuestion env fuel userQuery transcript w)
            = (transcript ++ user_message userQuery :: appended)%list)
        /\ (forall e w',
               processChatWithTools env fuel
                 (transcript ++ [user_message userQuery])%list w
               = Rejected e w' ->
               askQuestion env fuel userQuery transcript w
               = Asking (transcript ++ [user_message userQuery])%list w'))
    /\ (forall lines,
           exists appended,
             session_messages (run_session env fuel lines transcript w)
             = (transcript ++ appended)%list).
Proof.
  intros env fuel userQuery transcript w. split; [|split].
  - intros E. unfold askQuestion. now rewrite E, String.eqb_refl.
  - intros N. apply String.eqb_neq in N. unfold askQuestion. rewrite N. split.
    + destruct (processChatWithTools env fuel
                  (transcript ++ [user_message userQuery])%list w)
        as [updated w'|e w'|wm w'] eqn:P; simpl.
      * apply processChatWithTools_extends in P. destruct P as [a1 [_ ->]].
        exists a1. now rewrite <- app_assoc.
      * now exists [].
      * now exists [].
    + intros e w' R. now rewrite R.
  - intros lines. apply run_session_extends.
Qed.

Lemma session_records_every_line_witness :
  askQuestion notes_env 2 "EXIT" (messages notes_env) notes_world
  = Closed (messages notes_env)
  /\ askQuestion notes_env 2 notes_question (messages notes_env) notes_world
     = Asking [system_message notes_env; user_message notes_question] notes_world.
Proof.
  split.
  - apply (proj1 (session_records_every_line
                    notes_env 2 "EXIT" (messages notes_env) notes_world)).
    reflexivity.
  - apply (proj2 (proj1 (proj2 (session_records_every_line
                                  notes_env 2 notes_question (messages notes_env)
                                  notes_world))
                    ltac:(discriminate))
             (ERR_INVALID_ARG_TYPE "path"
                (VObject [("absolute_path", VString "/tmp/notes.txt")]))
             notes_world).
    reflexivity.
Defined.

(** ** main.js: saving the chat history *)

(** X19. [saveChatHistory].  With a transcript of at most one message
    (the system message alone) it writes nothing: one line on the console
    and no call to the file system.  With a longer transcript and the
    directory chat_history in place it never throws: if the file, named
    after the sanitised timestamp and not there yet, can be written, it
    holds the serialised transcript afterwards; if the write fails, in
    either way, the error is caught and its message goes to
    [console.error].  But when the directory is missing and cannot be
    made, [fs.mkdirSync], which is outside the [try], throws out of
    [saveChatHistory]. *)
Theorem saveChatHistory_writes_or_reports :
  forall (env : Env) (stringify_messages : list Message -> string)
         (transcript : list Message) (w : World),
    let file := history_file env (toISOString env (dates_taken w)) in
    (length transcript <= 1 ->
     saveChatHistory env stringify_messages transcript w
     = (Normal tt,
        write_console Stdout (nl ++ "대화 내용이 없어 저장하지 않습니다.") w))
    /\ (1 < length transcript ->
        (forall listing,
            assoc (historyDir env) (disk w) = Some (Directory listing) ->
            exists w',
              saveChatHistory env stringify_messages transcript w = (Normal tt, w')
              /\ (assoc file (write_errors w) = None ->
                  assoc file (disk w) = None ->
                  assoc file (disk w')
                  = Some (File (Normal (stringify_messages transcript))))
              /\ (forall failure,
                     assoc file (write_errors w) = Some failure ->
                     console w'
                     = console (write_console Stderr
                                  (nl ++ "대화 기록 저장 중 오류 발생: "
                                   ++ failure_message failure) w)))
        /\ (forall failure,
               assoc (historyDir env) (disk w) = None ->
               assoc (historyDir env) (write_errors w) = Some failure ->
               saveChatHistory env stringify_messages transcript w
               = (Throw (mkError "Error" (failure_message failure)), w))).
Proof.
  intros env stringify transcript w file.
  unfold saveChatHistory. split.
  - intros L. apply Nat.leb_le in L. now rewrite L.
  - intros L. apply Nat.leb_gt in L. rewrite L. split.
    + intros listing D. unfold new_Date_toISOString. run_js. rewrite D.
      cbn beta iota zeta. cbn [negb write_errors dates_taken disk]. fold file.
      destruct (assoc file (write_errors w)) as [[m|n m]|] eqn:W; cbn beta iota.
      * eexists. split; [reflexivity|]. split; [discriminate|].
        intros failure H. injection H as <-. reflexivity.
      * eexists. split; [reflexivity|]. split; [discriminate|].
        intros failure H. injection H as <-. reflexivity.
      * destruct (assoc file (disk w)) as [[c|l|c]|] eqn:F; cbn beta iota;
          (eexists; split; [reflexivity|]; split; [|discriminate]);
          intros _ F'; try discriminate.
        cbn [disk write_console set_disk]. unfold store_file, create_entry.
        rewrite F. apply assoc_set_entry_same.
    + intros failure D W. unfold fs_mkdirSync. run_js. rewrite D.
      cbn beta iota zeta. cbn [negb]. rewrite D, W. reflexivity.
Qed.

Lemma saveChatHistory_writes_or_reports_witness :
  saveChatHistory notes_env sample_stringify_messages (messages notes_env)
                  history_world
  = (Normal tt,
     write_console Stdout (nl ++ "대화 내용이 없어 저장하지 않습니다.") history_world)
  /\ exists w',
      saveChatHistory notes_env sample_stringify_messages
        [system_message notes_env; user_message notes_question] history_world
      = (Normal tt, w')
      /\ assoc "/home/user/agent/chat_history/chat_2025-06-01T09-30-00-000Z.json"
               (disk w')
         = Some (File (Normal ("system" ++ nl ++ "user"))).
Proof.
  split.
  - apply (proj1 (saveChatHistory_writes_or_reports
                    notes_env sample_stringify_messages (messages notes_env)
                    history_world)).
    simpl. lia.
  - destruct (proj1 (proj2 (saveChatHistory_writes_or_reports
                              notes_env sample_stringify_messages
                              [system_message notes_env; user_message notes_question]
                              history_world)
                       ltac:(simpl; lia))
                (Normal []) eq_refl) as [w' [E [F _]]].
    exists w'. split; [exact E | exact (F eq_refl eq_refl)].
Defined.

(** X20. The timestamp in the name of the history file.  The replacement
    of [:] and [.] keeps the length of the text, leaves no colon and no
    dot in it, and changes no other character. *)
Theorem replace_colons_and_dots_sanitises :
  forall (s : string),
    String.length (replace_colons_and_dots s) = String.length s
    /\ (forall n c,
           String.get n (replace_colons_and_dots s) = Some c ->
           c <> ":"%char /\ c <> "."%char)
    /\ (forall n c,
           String.get n s = Some c -> c <> ":"%char -> c <> "."%char ->
           String.get n (replace_colons_and_dots s) = Some c).
Proof.
  induction s as [|a s [IH1 [IH2 IH3]]]; simpl.
  - repeat split; intros; discriminate.
  - split; [now rewrite IH1|]. split.
    + intros [|n] c H.
      * injection H as <-.
        destruct (Ascii.eqb a ":") eqn:E1; simpl; [split; discriminate|].
        destruct (Ascii.eqb a ".") eqn:E2; simpl; [split; discriminate|].
        apply Ascii.eqb_neq in E1, E2. now split.
      * exact (IH2 n c H).
    + intros [|n] c H N1 N2.
      * injection H as ->.
        apply Ascii.eqb_neq in N1, N2. now rewrite N1, N2.
      * exact (IH3 n c H N1 N2).
Qed.
